(** * TeamsFx samples: the task-store handler and the notification handler

    A shallow embedding of the two serverless HTTP handlers of the
    repository:

    - the task-store handler ([module.exports], [getSQLConnection] and
      [execQuery]), which turns a request into one SQL statement and runs
      it over a tedious connection;
    - the notification handler ([run] of [finishTaskNotification/index.ts]),
      which posts a best-effort activity notification.

    The handlers are JavaScript [async] functions.  Their own code is
    translated statement by statement; the libraries they call (the
    TeamsFx SDK, tedious, the graph client) are not part of the
    repository and appear as an oracle, a record that fixes for one run
    what each library call does (returns, throws, which events it
    emits). *)

From Stdlib Require Import String Ascii List ZArith NArith Bool Lia DecimalString.
Import ListNotations.

Local Open Scope list_scope.
Local Open Scope string_scope.

(* ===================================================================== *)
(** ** JavaScript values *)
(* ===================================================================== *)

Module Js.

(** The values a request, a JSON body or a result row can hold.  [VNum n]
    stands for the safe integers of JavaScript ([Number.isSafeInteger]:
    magnitude below 2^53), the ids and flags of the handlers, which
    JavaScript prints in decimal; fractions and larger magnitudes, which
    it prints in exponent form from 1e21 on, are outside the model.  An
    object is given by its own enumerable properties, in enumeration
    order: this is what a response body shows once it is serialized. *)
#[warnings="-register-all"]
Inductive Value : Type :=
| VUndefined
| VNull
| VBool (b : bool)
| VNum (n : Z)
| VStr (s : string)
| VArr (items : list Value)
| VObj (fields : list (string * Value)).

(** A thrown error object; the handlers read only its [message]. *)
Record Exn : Type := mkExn { message : Value }.

(** The result of evaluating an expression or a library call. *)
Inductive Result (A : Type) : Type :=
| Ok (a : A)
| Throws (e : Exn).
Arguments Ok {A} a.
Arguments Throws {A} e.

(** ToBoolean: [undefined], [null], [false], [0] and the empty string are
    falsy, everything else is truthy. *)
Definition truthy (v : Value) : bool :=
  match v with
  | VUndefined | VNull => false
  | VBool b => b
  | VNum n => negb (Z.eqb n 0)
  | VStr s => negb (String.eqb s "")
  | VArr _ | VObj _ => true
  end.

(** [a || b] *)
Definition or_else (a b : Value) : Value := if truthy a then a else b.

Definition string_of_Z (n : Z) : string := NilZero.string_of_int (Z.to_int n).

(** ToString, as a template literal [`${v}`] or [s + v] applies it.  An
    array joins its elements with a comma, [null] and [undefined]
    elements giving the empty string. *)
Fixpoint toString (v : Value) : string :=
  match v with
  | VUndefined => "undefined"
  | VNull => "null"
  | VBool true => "true"
  | VBool false => "false"
  | VNum n => string_of_Z n
  | VStr s => s
  | VArr items =>
      let elt x := match x with
                   | VUndefined | VNull => ""
                   | _ => toString x
                   end in
      (fix join (l : list Value) : string :=
         match l with
         | [] => ""
         | [x] => elt x
         | x :: r => elt x ++ "," ++ join r
         end) items
  | VObj _ => "[object Object]"
  end.

Fixpoint lookup (k : string) (fs : list (string * Value)) : Value :=
  match fs with
  | [] => VUndefined
  | (k', v) :: r => if String.eqb k k' then v else lookup k r
  end.

(** A TypeError; [message] holds the text alone, as V8 words it. *)
Definition typeError (msg : string) : Exn := mkExn (VStr msg).

(** [base.k] for the property names the handlers read ([method], [query],
    [body], [id], [description], [isCompleted], [channelOrChatId],
    [objectId], [AccessToken]): reading a property of [undefined] or
    [null] throws a TypeError, a primitive or an array has none of these
    properties. *)
Definition getProp (base : Value) (k : string) : Result Value :=
  match base with
  | VUndefined =>
      Throws (typeError ("Cannot read properties of undefined (reading '" ++ k ++ "')"))
  | VNull =>
      Throws (typeError ("Cannot read properties of null (reading '" ++ k ++ "')"))
  | VObj fs => Ok (lookup k fs)
  | _ => Ok VUndefined
  end.

Definition lower_ascii (c : ascii) : ascii :=
  let n := nat_of_ascii c in
  if (Nat.leb 65 n && Nat.leb n 90)%bool then ascii_of_nat (n + 32) else c.

Fixpoint lower (s : string) : string :=
  match s with
  | EmptyString => EmptyString
  | String c r => String (lower_ascii c) (lower r)
  end.

(** [req.method.toLowerCase()], the only use of the method in the
    handlers: only a string has it (HTTP method names are ASCII, so only
    ASCII letters are folded). *)
Definition toLowerCase (v : Value) : Result string :=
  match v with
  | VStr s => Ok (lower s)
  | VUndefined =>
      Throws (typeError "Cannot read properties of undefined (reading 'toLowerCase')")
  | VNull =>
      Throws (typeError "Cannot read properties of null (reading 'toLowerCase')")
  | _ => Throws (typeError "req.method.toLowerCase is not a function")
  end.

(** *** Property assignment [obj[k] = v]

    An object enumerates its array-index keys first, in ascending order,
    then its other keys in insertion order; assigning an existing key
    keeps its place. *)

Definition digit_of (c : ascii) : option N :=
  let n := N_of_ascii c in
  if (N.leb 48 n && N.leb n 57)%bool then Some (n - 48)%N else None.

Fixpoint digits_value (s : string) (acc : N) : option N :=
  match s with
  | EmptyString => Some acc
  | String c r =>
      match digit_of c with
      | Some d => digits_value r (10 * acc + d)%N
      | None => None
      end
  end.

(** The canonical decimal strings of 0 .. 2^32 - 2 are array indices. *)
Definition array_index (s : string) : option N :=
  match s with
  | EmptyString => None
  | String c r =>
      if (Ascii.eqb c "0" && negb (String.eqb r ""))%bool then None
      else match digits_value s 0 with
           | Some n => if (n <? 2 ^ 32 - 1)%N then Some n else None
           | None => None
           end
  end.

Fixpoint has_key (k : string) (fs : list (string * Value)) : bool :=
  match fs with
  | [] => false
  | (k', _) :: r => String.eqb k k' || has_key k r
  end.

Fixpoint replace_key (k : string) (v : Value) (fs : list (string * Value))
  : list (string * Value) :=
  match fs with
  | [] => []
  | (k', v') :: r =>
      if String.eqb k k' then (k', v) :: r else (k', v') :: replace_key k v r
  end.

Fixpoint insert_index (n : N) (k : string) (v : Value) (fs : list (string * Value))
  : list (string * Value) :=
  match fs with
  | [] => [(k, v)]
  | (k', v') :: r =>
      match array_index k' with
      | Some m => if (m <? n)%N then (k', v') :: insert_index n k v r
                  else (k, v) :: fs
      | None => (k, v) :: fs
      end
  end.

(** The properties of an object without the key [k]. *)
Definition without (k : string) (fs : list (string * Value))
  : list (string * Value) :=
  filter (fun p => negb (String.eqb k (fst p))) fs.

Definition obj_set (fs : list (string * Value)) (k : string) (v : Value)
  : list (string * Value) :=
  if has_key k fs then replace_key k v fs
  else match array_index k with
       | Some n => insert_index n k v fs
       | None => (fs ++ [(k, v)])%list
       end.

(** *** Assignment [obj[k] = v] on an object created by [{}]

    [obj_set] defines an own property.  An assignment does so too, except
    where it meets the accessor [__proto__] of [Object.prototype]: while
    the object has no own property of that name and still inherits the
    accessor, assigning [__proto__] defines nothing and calls the setter,
    which replaces the prototype when the value is [null] or an object
    and ignores every other value.  The accessor is no longer inherited
    once the prototype is [null], and it is shadowed when the prototype is
    an object with an own property [__proto__]. *)

Inductive Proto : Type :=
| ObjectPrototype               (* the prototype of [{}] *)
| NullPrototype                 (* after [obj.__proto__ = null] *)
| ValuePrototype (v : Value).   (* after [obj.__proto__ = v], [v] an object *)

(** The setter of [__proto__]. *)
Definition set_proto (proto : Proto) (v : Value) : Proto :=
  match v with
  | VNull => NullPrototype
  | VObj _ | VArr _ => ValuePrototype v
  | _ => proto
  end.

(** Whether an assignment of [__proto__] reaches the accessor of
    [Object.prototype] through this prototype. *)
Definition inherits_accessor (proto : Proto) : bool :=
  match proto with
  | ObjectPrototype => true
  | NullPrototype => false
  | ValuePrototype (VObj fs) => negb (has_key "__proto__" fs)
  | ValuePrototype _ => true
  end.

Definition assign (obj : list (string * Value) * Proto) (k : string) (v : Value)
  : list (string * Value) * Proto :=
  let '(fs, proto) := obj in
  if (String.eqb k "__proto__" && negb (has_key k fs) && inherits_accessor proto)%bool
  then (fs, set_proto proto v)
  else (obj_set fs k v, proto).

(** The values that the setter of [__proto__] ignores. *)
Definition ignored_by_setter (v : Value) : bool :=
  match v with
  | VNull | VObj _ | VArr _ => false
  | _ => true
  end.

End Js.

(* ===================================================================== *)
(** ** Async functions: state, exceptions and promises that never settle *)
(* ===================================================================== *)

Module Async.

Import Js.

(** How the body of an [async] function, run from some point on, ends: it
    returns, it throws, or it stays suspended on an [await] whose promise
    is never settled. *)
Inductive Res (A : Type) : Type :=
| Ret (a : A)
| Throw (e : Exn)
| Hang.
Arguments Ret {A} a.
Arguments Throw {A} e.
Arguments Hang {A}.

Section Monad.

Variable S : Type.

Definition M (A : Type) : Type := S -> S * Res A.

Definition ret {A} (a : A) : M A := fun s => (s, Ret a).

Definition throw {A} (e : Exn) : M A := fun s => (s, Throw e).

Definition hang {A} : M A := fun s => (s, Hang).

(** [await p] for a promise [p] of this code that ends as [r]. *)
Definition await {A} (r : Res A) : M A := fun s => (s, r).

Definition bind {A B} (m : M A) (k : A -> M B) : M B :=
  fun s =>
    match m s with
    | (s', Ret a) => k a s'
    | (s', Throw e) => (s', Throw e)
    | (s', Hang) => (s', Hang)
    end.

(** An expression that may throw. *)
Definition lift {A} (r : Result A) : M A :=
  match r with
  | Ok a => ret a
  | Throws e => throw e
  end.

(** A library call that returns nothing of interest: [None] when it
    returns, [Some e] when it throws [e]. *)
Definition call (r : option Exn) : M unit :=
  match r with
  | None => ret tt
  | Some e => throw e
  end.

Definition modify (f : S -> S) : M unit := fun s => (f s, Ret tt).

Definition gets {A} (f : S -> A) : M A := fun s => (s, Ret (f s)).

(** [try { body } catch (err) { handler err }] *)
Definition try_catch {A} (body : M A) (handler : Exn -> M A) : M A :=
  fun s =>
    match body s with
    | (s', Throw e) => handler e s'
    | r => r
    end.

(** [... finally { cleanup }]: the cleanup runs when the protected block
    returns or throws, and its own exception replaces the block's result;
    a block suspended for ever never reaches it. *)
Definition finally {A} (body : M A) (cleanup : M unit) : M A :=
  fun s =>
    match body s with
    | (s', Hang) => (s', Hang)
    | (s', r) =>
        match cleanup s' with
        | (s'', Ret _) => (s'', r)
        | (s'', Throw e) => (s'', Throw e)
        | (s'', Hang) => (s'', Hang)
        end
    end.

End Monad.

Arguments ret {S A} a.
Arguments throw {S A} e.
Arguments hang {S A}.
Arguments await {S A} r.
Arguments bind {S A B} m k.
Arguments lift {S A} r.
Arguments call {S} r.
Arguments modify {S} f.
Arguments gets {S A} f.
Arguments try_catch {S A} body handler.
Arguments finally {S A} body cleanup.

(** [keeps f m]: the computation [m] leaves the observation [f] of the
    state as it found it, however it ends. *)
Definition keeps {S X A} (f : S -> X) (m : M S A) : Prop :=
  forall s s' r, m s = (s', r) -> f s' = f s.

Declare Scope async_scope.
Delimit Scope async_scope with async.

Notation "x <- m ;; k" := (bind m (fun x => k))
  (at level 61, m at next level, right associativity) : async_scope.
Notation "m ;; k" := (bind m (fun _ => k))
  (at level 61, right associativity) : async_scope.

End Async.

(* ===================================================================== *)
(** ** The task-store handler *)
(* ===================================================================== *)

Module TaskStore.

Import Js Async.
Local Open Scope async_scope.

(** The parts of the HTTP request the handler reads: [req.method],
    [req.query] and [req.body]. *)
Record Request : Type := mkRequest {
  req_method : Value;
  req_query : Value;
  req_body : Value
}.

Record Response : Type := mkResponse {
  status : Z;
  body : Value
}.

(** A column of a result row as [execQuery] reads it:
    [column.metadata.colName] and [column.value]. *)
Record Column : Type := mkColumn {
  colName : string;
  value : Value
}.

Record Connection : Type := mkConnection { conn_config : Value }.

(** What tedious does with a request that was handed to [execSql]. *)
Inductive DriverEvent : Type :=
| EmitRow (columns : list Column)   (* request.emit('row', columns) *)
| Callback (err : option Exn)       (* the callback given to new Request *)
| EmitRequestCompleted              (* request.emit('requestCompleted') *)
| DriverThrows (e : Exn).           (* the driver's own code throws *)

(** One run of the handler against its libraries.  [None] in an
    [option Exn] field means that the call returns normally.  The two
    promises made by the libraries, of [getConfig()] and of
    [getUserInfo()], are taken to settle; the promises made by this code,
    in [getSQLConnection] and [execQuery], may stay pending.

    [connect] is the ['connect'] event of the connection: [None] when it
    is never emitted, [Some error] when it is emitted with that [error]
    argument.  [execSql] gives, for the statement of the request, the
    events of the driver grouped by turn of the event loop: the head of
    the list happens inside the promise executor of [execQuery], during
    [new Request(query, ...)] and [connection.execSql(request)], each
    further element in a later turn. *)
Record World : Type := mkWorld {
  loadConfiguration : option Exn;
  getConfig : Result Value;
  newConnection : option Exn;
  connect : option (option Exn);
  newCredential : Value -> option Exn;
  getUserInfo : Result Value;
  execSql : Value -> list (list DriverEvent);
  close : option Exn
}.

(** The library calls of a run, in the order they are made. *)
Inductive Effect : Type :=
| LoadConfiguration
| GetConfig
| NewConnection (config : Value)
| NewCredential (accessToken : Value)
| GetUserInfo
| ExecSql (query : Value)
| Close.

(** The state of a run: the calls made so far, the handler's variable
    [connection] ([None] while it is [undefined]), and the exceptions
    that were thrown into the event loop, outside every promise. *)
Record St : Type := mkSt {
  trace : list Effect;
  connection : option Connection;
  uncaught : list Exn
}.

Definition init : St := mkSt [] None [].

Definition emit (e : Effect) : M St unit :=
  modify (fun s => mkSt (trace s ++ [e])%list (connection s) (uncaught s)).

Definition set_connection (c : Connection) : M St unit :=
  modify (fun s => mkSt (trace s) (Some c) (uncaught s)).

Definition escape (es : list Exn) : M St unit :=
  modify (fun s => mkSt (trace s) (connection s) (uncaught s ++ es)%list).

(** *** [getSQLConnection]

    The promise is resolved by the ['connect'] listener, whatever its
    [error] argument is; there is no other resolve and no reject. *)
Definition getSQLConnection (w : World) : M St Connection :=
  emit GetConfig ;;
  config <- lift (getConfig w) ;;
  emit (NewConnection config) ;;
  call (newConnection w) ;;
  match connect w with
  | Some error => ret (mkConnection config)
  | None => hang
  end.

(** *** [execQuery] *)

(** The ['row'] listener: [row[column.metadata.colName] = column.value]
    for each column in turn, starting from [{}]; the row that is pushed
    is given by its own properties. *)
Definition row_object (columns : list Column) : Value :=
  VObj (fst (fold_left (fun row c => assign row (colName c) (value c)) columns
                       ([], ObjectPrototype))).

(** A column that cannot change the prototype of its row: it is not named
    [__proto__], or its value is one the setter ignores. *)
Definition inert (c : Column) : Prop :=
  colName c = "__proto__" -> ignored_by_setter (value c) = true.

(** What an inert column does to a row that still has the prototype of
    [{}]: nothing when it is named [__proto__], an ordinary definition of
    its property otherwise. *)
Definition store (fs : list (string * Value)) (c : Column) : list (string * Value) :=
  if String.eqb (colName c) "__proto__" then fs
  else obj_set fs (colName c) (value c).

(** One turn of the event loop.  The result is the array [res], whether
    [resolve(res)] was called, and the exception that ended the turn, if
    any: the request callback rethrows a truthy [err], and nothing
    between the driver and the turn's caller catches it. *)
Fixpoint run_tick (evs : list DriverEvent) (res : list Value) (resolved : bool)
  : list Value * bool * option Exn :=
  match evs with
  | [] => (res, resolved, None)
  | EmitRow columns :: r => run_tick r (res ++ [row_object columns])%list resolved
  | Callback None :: r => run_tick r res resolved
  | Callback (Some err) :: _ => (res, resolved, Some err)
  | EmitRequestCompleted :: r => run_tick r res true
  | DriverThrows e :: _ => (res, resolved, Some e)
  end.

(** The promise of [execQuery]: how it is settled, and the exceptions that
    reach the event loop meanwhile.  In the first turn the driver runs
    inside the promise executor, so an exception rejects the promise
    unless it was already resolved; in a later turn an exception goes to
    the event loop and the promise is untouched.  The awaiting handler
    resumes after the turn that settled the promise, with [res] as it is
    then; with no turn left the promise stays pending. *)
Fixpoint settle (first : bool) (script : list (list DriverEvent)) (res : list Value)
  : list Exn * Res Value :=
  match script with
  | [] => ([], Hang)
  | t :: later =>
      let '(res', resolved, thrown) := run_tick t res false in
      match thrown with
      | Some e =>
          if first then ([], if resolved then Ret (VArr res') else Throw e)
          else if resolved then ([e], Ret (VArr res'))
               else let '(escaped, r) := settle false later res' in (e :: escaped, r)
      | None =>
          if resolved then ([], Ret (VArr res')) else settle false later res'
      end
  end.

Definition execQuery (w : World) (query : Value) (connection : Connection)
  : M St Value :=
  emit (ExecSql query) ;;
  let '(escaped, r) := settle true (execSql w query) [] in
  escape escaped ;;
  await r.

(** *** The statement of a request *)

Definition rbind {A B} (r : Result A) (k : A -> Result B) : Result B :=
  match r with
  | Ok a => k a
  | Throws e => Throws e
  end.

Notation "'let!' x ':=' r 'in' k" := (rbind r (fun x => k))
  (at level 10, x name, r at level 100, k at level 200).

(** [req.body.isCompleted ? 1 : 0] *)
Definition flag (v : Value) : string := if truthy v then "1" else "0".

(** The [switch (method)] of the handler.  [query] is declared without a
    value and stays [undefined] when no case matches. *)
Definition build_query (method : string) (req : Request) (objectId : Value)
  : Result Value :=
  if String.eqb method "get" then
    let! c := getProp (req_query req) "channelOrChatId" in
    Ok (VStr ("select id, description, isCompleted, objectId from dbo.Todo where channelOrChatId = '"
              ++ toString c ++ "'"))
  else if String.eqb method "put" then
    let! d := getProp (req_body req) "description" in
    if truthy d then
      let! d' := getProp (req_body req) "description" in
      let! id := getProp (req_body req) "id" in
      Ok (VStr ("update dbo.Todo set description = N'" ++ toString d'
                ++ "' where id = " ++ toString id))
    else
      let! c := getProp (req_body req) "isCompleted" in
      let! id := getProp (req_body req) "id" in
      Ok (VStr ("update dbo.Todo set isCompleted = " ++ flag c
                ++ " where id = " ++ toString id))
  else if String.eqb method "post" then
    let! d := getProp (req_body req) "description" in
    let! c := getProp (req_body req) "isCompleted" in
    let! ch := getProp (req_body req) "channelOrChatId" in
    Ok (VStr ("insert into dbo.Todo (description, objectId, isCompleted, channelOrChatId) values (N'"
              ++ toString d ++ "','" ++ toString objectId ++ "'," ++ flag c
              ++ ",'" ++ toString ch ++ "')"))
  else if String.eqb method "delete" then
    if truthy (req_body req) then
      let! id := getProp (req_body req) "id" in
      Ok (VStr ("delete from dbo.Todo where " ++ ("id = " ++ toString id)))
    else
      Ok (VStr ("delete from dbo.Todo where "
                ++ ("objectId = '" ++ toString objectId ++ "'")))
  else Ok VUndefined.

(** *** [module.exports] *)

(** The [try] block. *)
Definition handler_try (w : World) (req : Request) (config : Value)
  : M St Response :=
  c <- getSQLConnection w ;;
  set_connection c ;;
  method <- lift (toLowerCase (req_method req)) ;;
  accessToken <- lift (getProp config "AccessToken") ;;
  emit (NewCredential accessToken) ;;
  call (newCredential w accessToken) ;;
  emit GetUserInfo ;;
  currentUser <- lift (getUserInfo w) ;;
  objectId <- lift (getProp currentUser "objectId") ;;
  query <- lift (build_query method req objectId) ;;
  result <- execQuery w query c ;;
  ret (mkResponse 200 result).

(** The [catch] block. *)
Definition handler_catch (err : Exn) : M St Response :=
  ret (mkResponse 500 (VObj [("error", message err)])).

(** The [finally] block. *)
Definition handler_finally (w : World) : M St unit :=
  c <- gets connection ;;
  match c with
  | Some _ => emit Close ;; call (close w)
  | None => ret tt
  end.

(** The exported handler.  [loadConfiguration()] is called before the
    [try] statement. *)
Definition handler (w : World) (req : Request) (config : Value)
  : M St Response :=
  emit LoadConfiguration ;;
  call (loadConfiguration w) ;;
  finally (try_catch (handler_try w req config) handler_catch)
          (handler_finally w).

(** A whole run: the final state and how the handler's promise ends
    ([Ret]: fulfilled with the response, [Throw]: rejected, [Hang]: never
    settled). *)
Definition run (w : World) (req : Request) (config : Value)
  : St * Res Response :=
  handler w req config init.

(** The statements handed to the driver during a run. *)
Fixpoint submitted (t : list Effect) : list Value :=
  match t with
  | [] => []
  | ExecSql q :: r => q :: submitted r
  | _ :: r => submitted r
  end.

Definition is_close (e : Effect) : bool :=
  match e with Close => true | _ => false end.

(** How many times [connection.close()] was called. *)
Definition closes (t : list Effect) : nat := length (filter is_close t).

Definition close_count (s : St) : nat := closes (trace s).

(** The library calls before the statement is built all succeed: the
    configuration loads, the connection is created and its ['connect']
    event is emitted (with whatever [error]), the credential is built from
    [config.AccessToken], and the user it yields has [objectId] as its
    [objectId] property. *)
Inductive ready (w : World) (config objectId : Value) : Prop :=
| Ready (cfg accessToken currentUser : Value) (error : option Exn) :
    loadConfiguration w = None ->
    getConfig w = Ok cfg ->
    newConnection w = None ->
    connect w = Some error ->
    getProp config "AccessToken" = Ok accessToken ->
    newCredential w accessToken = None ->
    getUserInfo w = Ok currentUser ->
    getProp currentUser "objectId" = Ok objectId ->
    ready w config objectId.

(** The result of the handler once the [finally] block has run. *)
Definition after_close (w : World) (r : Res Response) : Res Response :=
  match close w with
  | None => r
  | Some e => Throw e
  end.

End TaskStore.

(* ===================================================================== *)
(** ** The notification handler *)
(* ===================================================================== *)

Module Notification.

Import Js Async.
Local Open Scope async_scope.

(** The handler reads only [req.headers]. *)
Record Request : Type := mkRequest { req_headers : Value }.

Record Response : Type := mkResponse {
  status : Z;
  body : Value
}.

(** The imported [config] module. *)
Record Config : Type := mkConfig {
  authorityHost : Value;
  clientId : Value;
  tenantId : Value;
  clientSecret : Value
}.

(** One run of the handler against its libraries.  The promises that the
    handler awaits are all made by the libraries; the model takes them to
    settle, fulfilled ([Ok], [None]) or rejected ([Throws], [Some e]): a
    library promise that stays pending for ever is outside the model. *)
Record World : Type := mkWorld {
  config : Config;
  newOnBehalfOfUserCredential : Value -> Value -> option Exn;
  createMicrosoftGraphClientWithCredential : option Exn;
  getMe : Result Value;
  getInstallationId : Value -> Result Value;
  newTeamsFx : option Exn;
  createMicrosoftGraphClient : option Exn;
  post : string -> Value -> option Exn
}.

(** The calls of a run, in the order they are made. *)
Inductive Effect : Type :=
| ContextLog (msg : string)
| ContextLogError (e : Exn)
| NewOnBehalfOfUserCredential (accessToken oboAuthConfig : Value)
| CreateGraphClientWithCredential
| GetMe
| GetInstallationId (userId : Value)
| NewTeamsFx
| CreateGraphClient
| Post (path : string) (postbody : Value)
| ConsoleLog (e : Exn).

Definition emit (e : Effect) : M (list Effect) unit :=
  modify (fun t => (t ++ [e])%list).

Definition postbody (userId installationId : Value) : Value :=
  VObj [("topic",
         VObj [("source", VStr "entityUrl");
               ("value", VStr ("https://graph.microsoft.com/v1.0/users/"
                               ++ toString userId
                               ++ "/teamwork/installedApps/"
                               ++ toString installationId))]);
        ("activityType", VStr "taskCreated");
        ("previewText", VObj [("content", VStr "Task Created")])].

(** The body of the second [try] block: the graph profile, the
    installation id and the activity notification. *)
Definition notify (w : World) : M (list Effect) unit :=
  emit CreateGraphClientWithCredential ;;
  call (createMicrosoftGraphClientWithCredential w) ;;
  emit GetMe ;;
  userProfile <- lift (getMe w) ;;
  userId <- lift (getProp userProfile "id") ;;
  emit (GetInstallationId userId) ;;
  installationId <- lift (getInstallationId w userId) ;;
  emit NewTeamsFx ;;
  call (newTeamsFx w) ;;
  emit CreateGraphClient ;;
  call (createMicrosoftGraphClient w) ;;
  let path := "users/" ++ toString userId ++ "/teamwork/sendActivityNotification" in
  emit (Post path (postbody userId installationId)) ;;
  call (post w path (postbody userId installationId)).

Definition missing_token : Response :=
  mkResponse 400 (VObj [("error", VStr "No access token was found in request header.")]).

Definition credential_failure : Response :=
  mkResponse 500
    (VObj [("error",
            VStr ("Failed to construct OnBehalfOfUserCredential using your accessToken. "
                  ++ "Ensure your function app is configured with the right Azure AD App registration."))]).

(** [res] after [res.body.receivedHTTPRequestBody = req.headers || ""]. *)
Definition echo (req : Request) : Response :=
  mkResponse 200
    (VObj (obj_set [] "receivedHTTPRequestBody" (or_else (req_headers req) (VStr "")))).

Definition oboAuthConfig (w : World) : Value :=
  VObj [("authorityHost", authorityHost (config w));
        ("clientId", clientId (config w));
        ("tenantId", tenantId (config w));
        ("clientSecret", clientSecret (config w))].

(** The exported [run].  The first [try] statement either leaves the
    credential in [oboCredential] or returns the 500 response from its
    [catch] block. *)
Definition run (w : World) (req : Request) (teamsfxContext : Value)
  : M (list Effect) Response :=
  emit (ContextLog "HTTP trigger function processed a request.") ;;
  let res := echo req in
  accessToken <- lift (getProp teamsfxContext "AccessToken") ;;
  if negb (truthy accessToken) then ret missing_token
  else
    returned <-
      try_catch
        (emit (NewOnBehalfOfUserCredential accessToken (oboAuthConfig w)) ;;
         call (newOnBehalfOfUserCredential w accessToken (oboAuthConfig w)) ;;
         ret None)
        (fun e => emit (ContextLogError e) ;; ret (Some credential_failure)) ;;
    match returned with
    | Some response => ret response
    | None =>
        try_catch (notify w) (fun e => emit (ConsoleLog e)) ;;
        ret res
    end.

Definition is_credential (e : Effect) : bool :=
  match e with NewOnBehalfOfUserCredential _ _ => true | _ => false end.

End Notification.

(* ===================================================================== *)
(** ** The relational store *)
(* ===================================================================== *)

Module Store.

Import Js TaskStore.

(** Modelled from the spec: the table [dbo.Todo] of the relational store,
    which the repository only reaches through SQL text.  A task has an
    [id] (integer, primary key), a [description] (text), an [isCompleted]
    flag (boolean), an [objectId] (the owning user) and a
    [channelOrChatId] (the conversation it belongs to). *)
Record Task : Type := mkTask {
  id : Z;
  description : string;
  isCompleted : bool;
  objectId : string;
  channelOrChatId : string
}.

(** The rows of the table that belong to one channel or chat. *)
Definition matching (table : list Task) (c : string) : list Task :=
  filter (fun t => String.eqb (channelOrChatId t) c) table.

(** The columns the store reports for a task selected with
    [select id, description, isCompleted, objectId], in that order. *)
Definition task_columns (t : Task) : list Column :=
  [mkColumn "id" (VNum (id t));
   mkColumn "description" (VStr (description t));
   mkColumn "isCompleted" (VBool (isCompleted t));
   mkColumn "objectId" (VStr (objectId t))].

(** The same task as an ordered mapping from column name to value. *)
Definition task_row (t : Task) : Value :=
  VObj [("id", VNum (id t));
        ("description", VStr (description t));
        ("isCompleted", VBool (isCompleted t));
        ("objectId", VStr (objectId t))].

(** The driver completes a request with the rows [rows]: over the turns
    of the event loop it emits one ['row'] event per row, in order, then
    calls the request callback without an error and emits
    ['requestCompleted']. *)
Definition delivers (script : list (list DriverEvent)) (rows : list (list Column))
  : Prop :=
  concat script = (map EmitRow rows ++ [Callback None; EmitRequestCompleted])%list.

End Store.

(* ===================================================================== *)
(** ** Sample runs *)
(* ===================================================================== *)

Module Scenario.

Import Js TaskStore Store.

Definition config : Value := VObj [("AccessToken", VStr "sso-token")].

Definition user : Value := VObj [("objectId", VStr "u1")].

Definition table : list Task :=
  [mkTask 1 "Buy milk" false "u1" "c1";
   mkTask 2 "Call Bob" true "u2" "c2";
   mkTask 5 "Ship it" false "u2" "c1"].

(** A driver that answers in the turn after the call. *)
Definition answer (rows : list (list Column)) : list (list DriverEvent) :=
  [[]; (map EmitRow rows ++ [Callback None; EmitRequestCompleted])%list].

(** A driver that reports an error the way tedious does: it calls the
    request callback with the error in a later turn and would emit
    ['requestCompleted'] after the callback returned. *)
Definition refuse (err : Exn) : list (list DriverEvent) :=
  [[]; [Callback (Some err); EmitRequestCompleted]].

(** Every library call succeeds and the store answers every statement
    with the rows of channel [c1]. *)
Definition healthy : World :=
  mkWorld None (Ok (VObj [("server", VStr "sql.example")])) None (Some None)
          (fun _ => None) (Ok user)
          (fun _ => answer (map task_columns (matching table "c1"))) None.

Definition syntax_error : Exn := mkExn (VStr "Incorrect syntax near 'brien'.").

(** The store rejects the statement with the error [err]. *)
Definition rejecting (err : Exn) : World :=
  mkWorld None (Ok (VObj [("server", VStr "sql.example")])) None (Some None)
          (fun _ => None) (Ok user) (fun _ => refuse err) None.

Definition socket_error : Exn :=
  mkExn (VStr "Failed to connect to sql.example:1433 - getaddrinfo ENOTFOUND").

Definition invalid_state : Exn :=
  mkExn (VStr "Requests can only be made in the LoggedIn state, not the Final state").

(** The store cannot be reached: the ['connect'] event carries an error,
    and the driver refuses a request on the dead connection by calling
    the request callback inside [execSql]. *)
Definition unreachable : World :=
  mkWorld None (Ok (VObj [("server", VStr "sql.example")])) None
          (Some (Some socket_error))
          (fun _ => None) (Ok user)
          (fun _ => [[Callback (Some invalid_state)]]) None.

Definition get_c1 : Request :=
  mkRequest (VStr "GET") (VObj [("channelOrChatId", VStr "c1")]) VUndefined.

Definition get_obrien : Request :=
  mkRequest (VStr "GET") (VObj [("channelOrChatId", VStr "o'brien")]) VUndefined.


Definition delete_5 : Request :=
  mkRequest (VStr "DELETE") (VObj []) (VObj [("id", VNum 5)]).

Definition delete_no_id : Request :=
  mkRequest (VStr "DELETE") (VObj []) (VObj []).

Definition delete_no_body : Request :=
  mkRequest (VStr "DELETE") (VObj []) VUndefined.

Definition put_description : Request :=
  mkRequest (VStr "PUT") (VObj [])
            (VObj [("id", VNum 1); ("description", VStr "Buy oat milk")]).

Definition put_completed : Request :=
  mkRequest (VStr "PUT") (VObj [])
            (VObj [("id", VNum 1); ("isCompleted", VBool true)]).

Definition put_empty_description : Request :=
  mkRequest (VStr "PUT") (VObj [])
            (VObj [("id", VNum 1); ("description", VStr "")]).

End Scenario.

Module NotificationScenario.

Import Js Notification.

Definition app : Config :=
  mkConfig (VStr "https://login.microsoftonline.com") (VStr "client-id")
           (VStr "tenant-id") (VStr "client-secret").

Definition headers : Value := VObj [("content-type", VStr "application/json")].

Definition request : Request := mkRequest headers.

Definition with_token : Value := VObj [("AccessToken", VStr "sso-token")].

Definition without_token : Value := VObj [].

Definition forbidden : Exn := mkExn (VStr "Forbidden").

(** Every library call succeeds. *)
Definition delivering : World :=
  mkWorld app (fun _ _ => None) None (Ok (VObj [("id", VStr "user-1")]))
          (fun _ => Ok (VStr "install-9")) None None (fun _ _ => None).

(** The graph service refuses the notification. *)
Definition refusing : World :=
  mkWorld app (fun _ _ => None) None (Ok (VObj [("id", VStr "user-1")]))
          (fun _ => Ok (VStr "install-9")) None None (fun _ _ => Some forbidden).

End NotificationScenario.

Module MoreScenario.

Import Js TaskStore Scenario.

Definition post_milk : Request :=
  mkRequest (VStr "POST") (VObj [])
            (VObj [("description", VStr "Buy milk"); ("isCompleted", VBool false);
                   ("channelOrChatId", VStr "c1")]).

Definition put_no_body : Request := mkRequest (VStr "PUT") (VObj []) VUndefined.

Definition get_no_parameter : Request := mkRequest (VStr "GET") (VObj []) VUndefined.

Definition no_connection_string : Exn :=
  mkExn (VStr "SQL connection configuration is missing").

(** The connection configuration cannot be obtained. *)
Definition unconfigured : World :=
  mkWorld None (Throws no_connection_string) None (Some None)
          (fun _ => None) (Ok user) (fun _ => answer []) None.

(** The ['connect'] event is never emitted. *)
Definition silent : World :=
  mkWorld None (Ok (VObj [("server", VStr "sql.example")])) None None
          (fun _ => None) (Ok user) (fun _ => answer []) None.

Definition token_expired : Exn := mkExn (VStr "The SSO token has expired").

(** The token exchange fails. *)
Definition expired : World :=
  mkWorld None (Ok (VObj [("server", VStr "sql.example")])) None (Some None)
          (fun _ => None) (Throws token_expired) (fun _ => answer []) None.

Definition already_closed : Exn := mkExn (VStr "Connection is already closed").

(** [connection.close()] throws. *)
Definition unclosable : World :=
  mkWorld None (Ok (VObj [("server", VStr "sql.example")])) None (Some None)
          (fun _ => None) (Ok user) (fun _ => answer []) (Some already_closed).

(** A row with a repeated column name and a column named [__proto__], as
    [select 1 as id, 'x' as [__proto__], 7 as id] reports it. *)
Definition odd_row : list Column :=
  [mkColumn "id" (VNum 1); mkColumn "__proto__" (VStr "x"); mkColumn "id" (VNum 7)].

Definition delete_injected : Request :=
  mkRequest (VStr "DELETE") (VObj []) (VObj [("id", VStr "5 or 1=1")]).

Definition put_injected : Request :=
  mkRequest (VStr "PUT") (VObj [])
            (VObj [("id", VNum 1); ("description", VStr "x', isCompleted = 1 --")]).

End MoreScenario.

Module MoreNotificationScenario.

Import Js Notification NotificationScenario.

Definition bad_secret : Exn := mkExn (VStr "Invalid client secret").

(** The app registration is wrong: the credential constructor throws. *)
Definition misconfigured : World :=
  mkWorld app (fun _ _ => Some bad_secret) None (Ok (VObj [("id", VStr "user-1")]))
          (fun _ => Ok (VStr "install-9")) None None (fun _ _ => None).

End MoreNotificationScenario.

(* ===================================================================== *)
(** ** Facts about JavaScript values *)
(* ===================================================================== *)

Module JsFacts.

Import Js.

Example toString_negative : toString (VNum (-5)) = "-5".
Proof. reflexivity. Qed.

Example toString_array :
  toString (VArr [VNum 1; VNull; VArr [VNum 2; VNum 3]; VStr "x"]) = "1,,2,3,x".
Proof. reflexivity. Qed.

Example toLowerCase_method : toLowerCase (VStr "DeLeTe") = Ok "delete".
Proof. reflexivity. Qed.

Example array_index_canonical :
  array_index "10" = Some 10%N /\ array_index "01" = None
  /\ array_index "id" = None /\ array_index "4294967295" = None.
Proof. repeat split. Qed.

(** Assigning an existing key keeps its place; an array index goes before
    the other keys. *)
Example obj_set_order :
  obj_set (obj_set (obj_set (obj_set [] "id" (VNum 1)) "b" VNull) "0" (VNum 3))
          "id" (VNum 7) =
    [("0", VNum 3); ("id", VNum 7); ("b", VNull)].
Proof. reflexivity. Qed.

Lemma truthy_or_else a b : truthy a = true -> or_else a b = a.
Proof. intros H. unfold or_else. rewrite H. reflexivity. Qed.

End JsFacts.

(* ===================================================================== *)
(** ** Facts about async computations *)
(* ===================================================================== *)

Module AsyncFacts.

Import Js Async.
Local Open Scope async_scope.

Section Keeps.

Variables (S X : Type).
Variable f : S -> X.

Lemma keeps_ret A (a : A) : keeps f (ret a).
Proof. intros s s' r H. inversion H. reflexivity. Qed.

Lemma keeps_throw A (e : Exn) : keeps f (@throw S A e).
Proof. intros s s' r H. inversion H. reflexivity. Qed.

Lemma keeps_hang A : keeps f (@hang S A).
Proof. intros s s' r H. inversion H. reflexivity. Qed.

Lemma keeps_await A (x : Res A) : keeps f (await x).
Proof. intros s s' r H. inversion H. reflexivity. Qed.

Lemma keeps_lift A (x : Result A) : keeps f (lift x).
Proof. destruct x; [apply keeps_ret | apply keeps_throw]. Qed.

Lemma keeps_call (x : option Exn) : keeps f (call x).
Proof. destruct x; [apply keeps_throw | apply keeps_ret]. Qed.

Lemma keeps_gets A (g : S -> A) : keeps f (gets g).
Proof. intros s s' r H. inversion H. reflexivity. Qed.

Lemma keeps_modify (g : S -> S) :
  (forall s, f (g s) = f s) -> keeps f (modify g).
Proof. intros Hg s s' r H. inversion H. apply Hg. Qed.

Lemma keeps_bind A B (m : M S A) (k : A -> M S B) :
  keeps f m -> (forall a, keeps f (k a)) -> keeps f (bind m k).
Proof.
  intros Hm Hk s s' r. unfold bind.
  destruct (m s) as [s1 [a | e | ]] eqn:E; intros H.
  - rewrite (Hk a _ _ _ H). exact (Hm _ _ _ E).
  - inversion H; subst. exact (Hm _ _ _ E).
  - inversion H; subst. exact (Hm _ _ _ E).
Qed.

Lemma keeps_try_catch A (m : M S A) (h : Exn -> M S A) :
  keeps f m -> (forall e, keeps f (h e)) -> keeps f (try_catch m h).
Proof.
  intros Hm Hh s s' r. unfold try_catch.
  destruct (m s) as [s1 [a | e | ]] eqn:E; intros H.
  - inversion H; subst. exact (Hm _ _ _ E).
  - rewrite (Hh e _ _ _ H). exact (Hm _ _ _ E).
  - inversion H; subst. exact (Hm _ _ _ E).
Qed.

End Keeps.

Create HintDb keeps.

#[export] Hint Resolve keeps_ret keeps_throw keeps_hang keeps_await keeps_lift keeps_call
  keeps_gets keeps_bind keeps_try_catch : keeps.

End AsyncFacts.

(* ===================================================================== *)
(** ** Facts about the task-store handler *)
(* ===================================================================== *)

Module TaskStoreFacts.

Import Js Async AsyncFacts TaskStore Store.
Local Open Scope async_scope.

(** *** Which steps call [close], which assign [connection] *)

Lemma closes_app t1 t2 : closes (t1 ++ t2) = closes t1 + closes t2.
Proof. unfold closes. rewrite filter_app, length_app. reflexivity. Qed.

Lemma emit_keeps_closes e : is_close e = false -> keeps close_count (emit e).
Proof.
  intros He. apply keeps_modify. intros s. unfold close_count. cbn [trace].
  rewrite closes_app. unfold closes at 2. cbn. rewrite He. cbn. lia.
Qed.

Lemma set_connection_keeps_closes c : keeps close_count (set_connection c).
Proof. apply keeps_modify. reflexivity. Qed.

Lemma escape_keeps_closes e : keeps close_count (escape e).
Proof. apply keeps_modify. reflexivity. Qed.

#[local] Hint Resolve emit_keeps_closes set_connection_keeps_closes
  escape_keeps_closes : keeps.

Lemma getSQLConnection_keeps_closes w : keeps close_count (getSQLConnection w).
Proof.
  unfold getSQLConnection.
  repeat (apply keeps_bind; [auto with keeps | intros ?]).
  destruct (connect w); auto with keeps.
Qed.

Lemma execQuery_keeps_closes w q c : keeps close_count (execQuery w q c).
Proof.
  unfold execQuery. destruct (settle true (execSql w q) []). auto with keeps.
Qed.

#[local] Hint Resolve getSQLConnection_keeps_closes execQuery_keeps_closes : keeps.

Lemma handler_try_keeps_closes w req config :
  keeps close_count (handler_try w req config).
Proof.
  unfold handler_try.
  repeat (apply keeps_bind; [auto with keeps | intros ?]).
  auto with keeps.
Qed.

Lemma handler_catch_keeps_closes e : keeps close_count (handler_catch e).
Proof. unfold handler_catch. auto with keeps. Qed.

(** The protected part of the handler never calls [close]. *)
Lemma protected_keeps_closes w req config :
  keeps close_count (try_catch (handler_try w req config) handler_catch).
Proof.
  apply keeps_try_catch;
    [apply handler_try_keeps_closes | apply handler_catch_keeps_closes].
Qed.

(** Whenever the handler's promise settles (it is fulfilled with a
    response or rejected) and a connection was acquired, i.e. the variable
    [connection] was assigned, [connection.close()] was called exactly
    once during the run and is the last call of the run: nothing happens
    between the release and the delivery of the result. *)
Lemma connection_released_once w req config s r :
  run w req config = (s, r) ->
  connection s <> None ->
  r <> Hang ->
  closes (trace s) = 1 /\ exists before, trace s = (before ++ [Close])%list.
Proof.
  unfold run, handler, bind, emit, modify, init. cbn [trace connection uncaught].
  destruct (loadConfiguration w) as [e | ]; cbn [call throw ret].
  - intros H. inversion H; subst. cbn. congruence.
  - unfold finally.
    destruct (try_catch (handler_try w req config) handler_catch
                (mkSt ([] ++ [LoadConfiguration]) None [])) as [s1 r1] eqn:E.
    pose proof (protected_keeps_closes w req config _ _ _ E) as Hk.
    unfold close_count in Hk. cbn in Hk.
    unfold handler_finally, bind, gets, emit, modify.
    destruct r1 as [resp | e | ].
    + destruct (connection s1) as [c | ] eqn:Ec; cbn [call throw ret].
      * destruct (close w); cbn [call throw ret]; intros H; inversion H; subst;
          cbn [trace]; intros _ _;
          (split; [rewrite closes_app, Hk; reflexivity | eauto]).
      * intros H; inversion H; subst. congruence.
    + destruct (connection s1) as [c | ] eqn:Ec; cbn [call throw ret].
      * destruct (close w); cbn [call throw ret]; intros H; inversion H; subst;
          cbn [trace]; intros _ _;
          (split; [rewrite closes_app, Hk; reflexivity | eauto]).
      * intros H; inversion H; subst. congruence.
    + intros H; inversion H; subst. congruence.
Qed.


(** A run whose promise never settles, or that acquired no connection,
    never calls [close]. *)
Lemma not_released_otherwise w req config s r :
  run w req config = (s, r) ->
  connection s = None \/ r = Hang ->
  closes (trace s) = 0.
Proof.
  unfold run, handler, bind, emit, modify, init. cbn [trace connection uncaught].
  destruct (loadConfiguration w) as [e | ]; cbn [call throw ret].
  - intros H _. inversion H; subst. reflexivity.
  - unfold finally.
    destruct (try_catch (handler_try w req config) handler_catch
                (mkSt ([] ++ [LoadConfiguration]) None [])) as [s1 r1] eqn:E.
    pose proof (protected_keeps_closes w req config _ _ _ E) as Hk.
    unfold close_count in Hk. cbn in Hk.
    unfold handler_finally, bind, gets, emit, modify.
    destruct r1 as [resp | e | ];
      try (intros H _; inversion H; subst; exact Hk);
      (destruct (connection s1) as [c | ] eqn:Ec; cbn [call throw ret];
       [ destruct (close w); cbn [call throw ret]; intros H; inversion H; subst;
         (intros [Hc | Hr]; [cbn [connection] in Hc; congruence | discriminate])
       | intros H; inversion H; subst; intros _; exact Hk ]).
Qed.

(** *** Runs that reach the statement *)

Ltac reduce :=
  cbv beta iota zeta delta
    [bind ret throw hang await lift call modify gets finally try_catch
     emit set_connection escape trace connection uncaught init].

Ltac step H := rewrite H; reduce.

(** The whole run of a request whose libraries succeed up to the point
    where the statement is built. *)
Lemma run_ready w req config objectId method :
  ready w config objectId ->
  toLowerCase (req_method req) = Ok method ->
  exists before c,
    submitted before = [] /\
    run w req config =
      match build_query method req objectId with
      | Throws e =>
          (mkSt (before ++ [Close]) (Some c) [],
           after_close w (Ret (mkResponse 500 (VObj [("error", message e)]))))
      | Ok q =>
          match settle true (execSql w q) [] with
          | (escaped, Ret v) =>
              (mkSt (before ++ [ExecSql q; Close]) (Some c) escaped,
               after_close w (Ret (mkResponse 200 v)))
          | (escaped, Throw e) =>
              (mkSt (before ++ [ExecSql q; Close]) (Some c) escaped,
               after_close w (Ret (mkResponse 500 (VObj [("error", message e)]))))
          | (escaped, Hang) =>
              (mkSt (before ++ [ExecSql q]) (Some c) escaped, Hang)
          end
      end.
Proof.
  intros [cfg accessToken currentUser error Hload Hcfg Hnew Hconnect Htoken Hcred
            Huser Hid] Hmethod.
  exists [LoadConfiguration; GetConfig; NewConnection cfg;
          NewCredential accessToken; GetUserInfo], (mkConnection cfg).
  split; [reflexivity | ].
  unfold run, handler, handler_try, getSQLConnection, handler_finally,
    handler_catch, execQuery, after_close.
  reduce. step Hload. step Hcfg. step Hnew. step Hconnect. step Hmethod.
  step Htoken. step Hcred. step Huser. step Hid.
  destruct (build_query method req objectId) as [q | e]; reduce.
  - destruct (settle true (execSql w q) []) as [escaped [v | e | ]]; reduce;
      try reflexivity; destruct (close w); reflexivity.
  - destruct (close w); reflexivity.
Qed.

Lemma submitted_app t1 t2 : submitted (t1 ++ t2) = (submitted t1 ++ submitted t2)%list.
Proof.
  induction t1 as [| e t1 IH]; [reflexivity | ].
  destruct e; cbn; rewrite IH; reflexivity.
Qed.

(** A run that reaches the statement hands exactly that statement to the
    driver, once. *)
Lemma submitted_ready w req config objectId method q :
  ready w config objectId ->
  toLowerCase (req_method req) = Ok method ->
  build_query method req objectId = Ok q ->
  submitted (trace (fst (run w req config))) = [q].
Proof.
  intros Hready Hmethod Hq.
  destruct (run_ready w req config objectId method Hready Hmethod)
    as (before & c & Hbefore & Hrun).
  rewrite Hrun, Hq.
  destruct (settle true (execSql w q) []) as [escaped [v | e | ]];
    cbn [fst trace]; rewrite submitted_app, Hbefore; reflexivity.
Qed.

(** The response of a run that reaches the statement, when [close]
    returns normally. *)
Lemma response_ready w req config objectId method q :
  ready w config objectId ->
  close w = None ->
  toLowerCase (req_method req) = Ok method ->
  build_query method req objectId = Ok q ->
  snd (run w req config) =
    match snd (settle true (execSql w q) []) with
    | Ret v => Ret (mkResponse 200 v)
    | Throw e => Ret (mkResponse 500 (VObj [("error", message e)]))
    | Hang => Hang
    end.
Proof.
  intros Hready Hclose Hmethod Hq.
  destruct (run_ready w req config objectId method Hready Hmethod)
    as (before & c & Hbefore & Hrun).
  rewrite Hrun, Hq. unfold after_close. rewrite Hclose.
  destruct (settle true (execSql w q) []) as [escaped [v | e | ]]; reflexivity.
Qed.

(** *** The statements of delete and update requests *)

(** C3, as the code has it.  For a delete request whose libraries succeed
    up to the statement, the one statement handed to the driver is a text
    chosen by the presence of a body, not of an [id]: with a (truthy)
    body it is [delete from dbo.Todo where id = ] followed by the string
    form of [body.id]; without a body it is [delete from dbo.Todo where
    objectId = '], the string form of the caller's derived identity, and
    [']. *)
Theorem delete_statement w req config objectId :
  ready w config objectId ->
  toLowerCase (req_method req) = Ok "delete" ->
  (forall id,
      truthy (req_body req) = true ->
      getProp (req_body req) "id" = Ok id ->
      submitted (trace (fst (run w req config))) =
        [VStr ("delete from dbo.Todo where id = " ++ toString id)]) /\
  (truthy (req_body req) = false ->
   submitted (trace (fst (run w req config))) =
     [VStr ("delete from dbo.Todo where objectId = '" ++ toString objectId ++ "'")]).
Proof.
  intros Hready Hmethod. split.
  - intros id Hbody Hid.
    apply (submitted_ready w req config objectId "delete"); auto.
    unfold build_query. cbn [String.eqb Ascii.eqb Bool.eqb].
    rewrite Hbody, Hid. reflexivity.
  - intros Hbody.
    apply (submitted_ready w req config objectId "delete"); auto.
    unfold build_query. cbn [String.eqb Ascii.eqb Bool.eqb].
    rewrite Hbody. reflexivity.
Qed.

(** The statement of an update request with a body. *)
Lemma build_query_put req objectId d id c :
  getProp (req_body req) "description" = Ok d ->
  getProp (req_body req) "id" = Ok id ->
  getProp (req_body req) "isCompleted" = Ok c ->
  build_query "put" req objectId =
    Ok (VStr (if truthy d
              then "update dbo.Todo set description = N'" ++ toString d
                   ++ "' where id = " ++ toString id
              else "update dbo.Todo set isCompleted = " ++ (if truthy c then "1" else "0")
                   ++ " where id = " ++ toString id)).
Proof.
  intros Hd Hid Hc.
  unfold build_query, flag. cbn [String.eqb Ascii.eqb Bool.eqb].
  rewrite Hd, Hid, Hc. cbn [rbind]. destruct (truthy d); reflexivity.
Qed.

(** C4, as the code has it.  For an update request with a body, whose
    libraries succeed up to the statement, exactly one statement is handed
    to the driver and it is one of two texts: when the body's
    [description] is truthy (present and not empty), [update dbo.Todo set
    description = N'], the string form of the description, [' where id = ]
    and the string form of the id; otherwise [update dbo.Todo set
    isCompleted = ], 1 for a truthy [isCompleted] of the body and 0
    otherwise, [ where id = ] and the string form of the id. *)
Theorem update_statement w req config objectId d id c :
  ready w config objectId ->
  toLowerCase (req_method req) = Ok "put" ->
  getProp (req_body req) "description" = Ok d ->
  getProp (req_body req) "id" = Ok id ->
  getProp (req_body req) "isCompleted" = Ok c ->
  submitted (trace (fst (run w req config))) =
    [VStr (if truthy d
           then "update dbo.Todo set description = N'" ++ toString d
                ++ "' where id = " ++ toString id
           else "update dbo.Todo set isCompleted = " ++ (if truthy c then "1" else "0")
                ++ " where id = " ++ toString id)].
Proof.
  intros Hready Hmethod Hd Hid Hc.
  apply (submitted_ready w req config objectId "put"); auto.
  apply build_query_put; assumption.
Qed.

(** *** An empty description *)

Lemma lookup_without k k' fs :
  String.eqb k' k = false -> lookup k' (without k fs) = lookup k' fs.
Proof.
  intros Hk. unfold without.
  induction fs as [| [k0 v0] fs IH]; [reflexivity | ].
  cbn. destruct (String.eqb k k0) eqn:E0; cbn.
  - apply String.eqb_eq in E0. subst k0. rewrite Hk. exact IH.
  - rewrite IH. reflexivity.
Qed.

Lemma lookup_without_same k fs : lookup k (without k fs) = VUndefined.
Proof.
  unfold without. induction fs as [| [k0 v0] fs IH]; [reflexivity | ].
  cbn. destruct (String.eqb k k0) eqn:E0; cbn; [ | rewrite E0]; exact IH.
Qed.

(** The handler reads the request through its method and, once the
    method is known, through the statement built from it. *)
Lemma run_ext w req req' config method :
  req_method req' = req_method req ->
  toLowerCase (req_method req) = Ok method ->
  (forall objectId, build_query method req' objectId = build_query method req objectId) ->
  run w req' config = run w req config.
Proof.
  intros Hm Hmethod Hq.
  unfold run, handler, handler_try, getSQLConnection, handler_finally,
    handler_catch, execQuery.
  rewrite Hm, Hmethod. reduce.
  destruct (loadConfiguration w); reduce; [reflexivity | ].
  destruct (getConfig w); reduce; [ | reflexivity].
  destruct (newConnection w); reduce; [reflexivity | ].
  destruct (connect w); reduce; [ | reflexivity].
  destruct (getProp config "AccessToken") as [accessToken | ]; reduce;
    [ | reflexivity].
  destruct (newCredential w accessToken); reduce; [reflexivity | ].
  destruct (getUserInfo w) as [currentUser | ]; reduce; [ | reflexivity].
  destruct (getProp currentUser "objectId") as [objectId | ]; reduce;
    [ | reflexivity].
  rewrite Hq. reflexivity.
Qed.

(** C10.  For an update request whose body carries [description] equal to
    the empty string, and whose libraries succeed up to the statement,
    the statement handed to the driver is the update of [isCompleted]
    (1 for a truthy [isCompleted] of the body, 0 otherwise) for the row
    matching [id]; it does not assign [description].  The whole run is the
    run of the same request with [description] absent from the body. *)
Theorem empty_description_updates_isCompleted w req config objectId fields :
  ready w config objectId ->
  toLowerCase (req_method req) = Ok "put" ->
  req_body req = VObj fields ->
  lookup "description" fields = VStr "" ->
  submitted (trace (fst (run w req config))) =
    [VStr ("update dbo.Todo set isCompleted = "
           ++ (if truthy (lookup "isCompleted" fields) then "1" else "0")
           ++ " where id = " ++ toString (lookup "id" fields))] /\
  run w req config =
    run w (mkRequest (req_method req) (req_query req)
                     (VObj (without "description" fields))) config.
Proof.
  intros Hready Hmethod Hbody Hd. split.
  - apply (submitted_ready w req config objectId "put"); auto.
    rewrite (build_query_put req objectId (VStr "")
               (lookup "id" fields) (lookup "isCompleted" fields));
      [reflexivity | | | ]; rewrite Hbody; cbn [getProp]; congruence.
  - symmetry. apply (run_ext w req _ config "put"); auto.
    intros o. unfold build_query.
    cbn [String.eqb Ascii.eqb Bool.eqb req_body getProp rbind].
    rewrite Hbody. cbn [getProp rbind].
    rewrite lookup_without_same, Hd.
    rewrite !lookup_without by reflexivity. reflexivity.
Qed.

(** *** Collecting the rows of a completed request *)

(** A turn that holds the next events of a request that completes
    normally either stops before ['requestCompleted'], having pushed the
    rows it held, or ends with it, having pushed all the rows. *)
Lemma run_tick_completing t :
  forall rest rows n res,
    (t ++ rest)%list =
      (map EmitRow rows ++ repeat (Callback None) n ++ [EmitRequestCompleted])%list ->
    (exists rows1 rows2 n2,
        run_tick t res false = ((res ++ map row_object rows1)%list, false, None) /\
        rows = (rows1 ++ rows2)%list /\
        rest =
          (map EmitRow rows2 ++ repeat (Callback None) n2
             ++ [EmitRequestCompleted])%list) \/
    run_tick t res false = ((res ++ map row_object rows)%list, true, None).
Proof.
  induction t as [| e t IH]; intros rest rows n res H.
  - left. exists [], rows, n. cbn. rewrite !app_nil_r. auto.
  - destruct rows as [| r rows].
    + destruct n as [| n]; cbn in H; inversion H; subst.
      * right. destruct t; [ | discriminate]. cbn. rewrite app_nil_r. reflexivity.
      * destruct (IH rest [] n res H2) as [(rows1 & rows2 & n2 & Ht & Hrows & Hrest) | Ht].
        -- left. exists rows1, rows2, n2. auto.
        -- right. exact Ht.
    + cbn in H. inversion H; subst.
      destruct (IH rest rows n (res ++ [row_object r])%list H2)
        as [(rows1 & rows2 & n2 & Ht & Hrows & Hrest) | Ht].
      * left. exists (r :: rows1), rows2, n2. cbn [run_tick map].
        rewrite Ht, <- app_assoc. subst rows. auto.
      * right. cbn [run_tick map]. rewrite Ht, <- app_assoc. reflexivity.
Qed.

Lemma settle_completing script :
  forall first rows n res,
    concat script =
      (map EmitRow rows ++ repeat (Callback None) n ++ [EmitRequestCompleted])%list ->
    settle first script res = ([], Ret (VArr (res ++ map row_object rows)%list)).
Proof.
  induction script as [| t later IH]; intros first rows n res H.
  - cbn in H. destruct (map EmitRow rows); destruct n; discriminate.
  - cbn [concat] in H. cbn [settle].
    destruct (run_tick_completing t (concat later) rows n res H)
      as [(rows1 & rows2 & n2 & Ht & Hrows & Hrest) | Ht]; rewrite Ht.
    + rewrite (IH false rows2 n2 _ Hrest). subst rows.
      rewrite map_app, app_assoc. reflexivity.
    + reflexivity.
Qed.

(** [execQuery] resolves with the rows of a completed request, each as
    the object its ['row'] listener builds, in the order of arrival. *)
Lemma settle_delivers script rows :
  delivers script rows ->
  settle true script [] = ([], Ret (VArr (map row_object rows))).
Proof.
  intros H. apply (settle_completing script true rows 1 []). exact H.
Qed.

(** *** The order of the columns in a row *)

Lemma has_key_app k fs gs : has_key k (fs ++ gs) = has_key k fs || has_key k gs.
Proof.
  induction fs as [| [k0 v0] fs IH]; [reflexivity | ].
  cbn. rewrite IH, orb_assoc. reflexivity.
Qed.

Lemma assign_ordinary fs proto k v :
  k <> "__proto__" -> assign (fs, proto) k v = (obj_set fs k v, proto).
Proof.
  intros Hk. apply String.eqb_neq in Hk. unfold assign. rewrite Hk. reflexivity.
Qed.

Lemma fold_obj_set columns :
  forall row proto,
    NoDup (map colName columns) ->
    Forall (fun c => array_index (colName c) = None
                     /\ has_key (colName c) row = false
                     /\ colName c <> "__proto__") columns ->
    fold_left (fun row c => assign row (colName c) (value c)) columns (row, proto) =
      ((row ++ map (fun c => (colName c, value c)) columns)%list, proto).
Proof.
  induction columns as [| c columns IH]; intros row proto Hnodup Hall.
  - cbn. rewrite app_nil_r. reflexivity.
  - inversion Hnodup as [| ? ? Hnotin Hnodup']; subst.
    inversion Hall as [| ? ? [Hindex [Hkey Hproto]] Hall']; subst.
    cbn [fold_left map]. rewrite (assign_ordinary _ _ _ _ Hproto).
    unfold obj_set. rewrite Hkey, Hindex.
    rewrite IH.
    + rewrite <- app_assoc. reflexivity.
    + exact Hnodup'.
    + rewrite Forall_forall in *. intros c' Hin.
      destruct (Hall' c' Hin) as [Hindex' [Hkey' Hproto']].
      split; [exact Hindex' | split; [ | exact Hproto']].
      rewrite has_key_app, Hkey'. cbn. rewrite orb_false_r.
      apply String.eqb_neq. intros Heq. apply Hnotin. rewrite <- Heq.
      apply in_map. exact Hin.
Qed.

(** X16.  A row whose column names are distinct, are not array indices and
    are not [__proto__] becomes the mapping from column name to value in
    the order of the columns. *)
Lemma row_object_in_column_order columns :
  NoDup (map colName columns) ->
  Forall (fun c => array_index (colName c) = None) columns ->
  ~ In "__proto__" (map colName columns) ->
  row_object columns = VObj (map (fun c => (colName c, value c)) columns).
Proof.
  intros Hnodup Hall Hproto. unfold row_object. rewrite fold_obj_set; auto.
  rewrite Forall_forall in *. intros c Hin.
  split; [auto | split; [reflexivity | ]].
  intros Heq. apply Hproto. rewrite <- Heq. apply in_map. exact Hin.
Qed.

Lemma row_object_task t : row_object (task_columns t) = task_row t.
Proof. reflexivity. Qed.

(** *** Read requests *)

(** C8.  For a read request with channel or chat id [c] whose libraries
    succeed, the statement handed to the store selects [id],
    [description], [isCompleted] and [objectId] of the tasks whose
    [channelOrChatId] is [c]; when the store completes that statement
    with the matching rows of its table, the response has status 200 and
    its body is exactly those rows, in the order of the store, each as
    the mapping from column name to value in the column order of the
    store's metadata. *)
Theorem read_returns_matching_rows w req config objectId c table :
  ready w config objectId ->
  close w = None ->
  toLowerCase (req_method req) = Ok "get" ->
  getProp (req_query req) "channelOrChatId" = Ok (VStr c) ->
  delivers
    (execSql w
       (VStr ("select id, description, isCompleted, objectId from dbo.Todo where channelOrChatId = '"
              ++ c ++ "'")))
    (map task_columns (matching table c)) ->
  submitted (trace (fst (run w req config))) =
    [VStr ("select id, description, isCompleted, objectId from dbo.Todo where channelOrChatId = '"
           ++ c ++ "'")] /\
  snd (run w req config) =
    Ret (mkResponse 200 (VArr (map task_row (matching table c)))).
Proof.
  intros Hready Hclose Hmethod Hc Hstore.
  assert (Hq : build_query "get" req objectId =
               Ok (VStr ("select id, description, isCompleted, objectId from dbo.Todo where channelOrChatId = '"
                         ++ c ++ "'"))).
  { unfold build_query. cbn [String.eqb Ascii.eqb Bool.eqb]. rewrite Hc. reflexivity. }
  split.
  - apply (submitted_ready w req config objectId "get"); assumption.
  - rewrite (response_ready w req config objectId "get" _ Hready Hclose Hmethod Hq).
    rewrite (settle_delivers _ _ Hstore). cbn [snd].
    rewrite map_map. reflexivity.
Qed.

(** *** Unrecognized methods *)



(** *** Sample runs *)

Import Scenario.

(** [connection_released_once] on a successful read. *)
Lemma connection_released_on_read :
  closes (trace (fst (run healthy get_c1 config))) = 1 /\
  exists before, trace (fst (run healthy get_c1 config)) = (before ++ [Close])%list.
Proof.
  apply (connection_released_once healthy get_c1 config
           (fst (run healthy get_c1 config)) (snd (run healthy get_c1 config))).
  - reflexivity.
  - vm_compute. discriminate.
  - vm_compute. discriminate.
Defined.

(** [delete_statement] on a delete with [id] 5 and on a delete without a
    body. *)
Lemma delete_statement_witness :
  submitted (trace (fst (run healthy delete_5 config))) =
    [VStr "delete from dbo.Todo where id = 5"] /\
  submitted (trace (fst (run healthy delete_no_body config))) =
    [VStr "delete from dbo.Todo where objectId = 'u1'"].
Proof.
  split.
  - apply (proj1 (delete_statement healthy delete_5 config (VStr "u1")
                    ltac:(eapply Ready; reflexivity) eq_refl) (VNum 5));
      reflexivity.
  - apply (proj2 (delete_statement healthy delete_no_body config (VStr "u1")
                    ltac:(eapply Ready; reflexivity) eq_refl)).
    reflexivity.
Defined.

(** C3 fails as stated: a delete request whose body supplies no [id]
    still gets the statement by id, here with the text [undefined] for
    the id, and not the statement for the caller's rows. *)
Lemma delete_without_id_counterexample :
  getProp (req_body delete_no_id) "id" = Ok VUndefined /\
  submitted (trace (fst (run healthy delete_no_id config))) =
    [VStr "delete from dbo.Todo where id = undefined"] /\
  submitted (trace (fst (run healthy delete_no_id config))) <>
    [VStr "delete from dbo.Todo where objectId = 'u1'"].
Proof.
  split; [reflexivity | split; [reflexivity | ]].
  vm_compute. discriminate.
Qed.

(** The [id] of the body enters the statement as it is: the statement of
    a body whose [id] is the string [5 or 1=1] has a condition that holds
    for every row. *)
Lemma delete_id_is_interpolated :
  submitted (trace (fst (run healthy MoreScenario.delete_injected config))) =
    [VStr "delete from dbo.Todo where id = 5 or 1=1"].
Proof. reflexivity. Qed.

(** [update_statement] on an update of the description and on an update
    of the completion flag. *)
Lemma update_statement_witness :
  submitted (trace (fst (run healthy put_description config))) =
    [VStr "update dbo.Todo set description = N'Buy oat milk' where id = 1"] /\
  submitted (trace (fst (run healthy put_completed config))) =
    [VStr "update dbo.Todo set isCompleted = 1 where id = 1"].
Proof.
  split.
  - apply (update_statement healthy put_description config (VStr "u1")
             (VStr "Buy oat milk") (VNum 1) VUndefined
             ltac:(eapply Ready; reflexivity)); reflexivity.
  - apply (update_statement healthy put_completed config (VStr "u1")
             VUndefined (VNum 1) (VBool true)
             ltac:(eapply Ready; reflexivity)); reflexivity.
Defined.

(** C4 fails as stated: the body carries a [description], the empty
    string, and the statement updates [isCompleted], not [description]. *)
Lemma update_empty_description_counterexample :
  getProp (req_body put_empty_description) "description" = Ok (VStr "") /\
  submitted (trace (fst (run healthy put_empty_description config))) =
    [VStr "update dbo.Todo set isCompleted = 0 where id = 1"] /\
  submitted (trace (fst (run healthy put_empty_description config))) <>
    [VStr "update dbo.Todo set description = N'' where id = 1"].
Proof.
  split; [reflexivity | split; [reflexivity | ]].
  vm_compute. discriminate.
Qed.

(** The [description] of the body enters the statement as it is: a
    description that holds a quote ends the literal, and the text after
    the quote is read as SQL, here a second assignment and a comment that
    removes the condition on [id]. *)
Lemma update_description_is_interpolated :
  submitted (trace (fst (run healthy MoreScenario.put_injected config))) =
    [VStr "update dbo.Todo set description = N'x', isCompleted = 1 --' where id = 1"].
Proof. reflexivity. Qed.

(** [empty_description_updates_isCompleted] on the update with an empty
    description. *)
Lemma empty_description_witness :
  submitted (trace (fst (run healthy put_empty_description config))) =
    [VStr "update dbo.Todo set isCompleted = 0 where id = 1"] /\
  run healthy put_empty_description config =
    run healthy (mkRequest (VStr "PUT") (VObj []) (VObj [("id", VNum 1)])) config.
Proof.
  apply (empty_description_updates_isCompleted healthy put_empty_description
           config (VStr "u1") [("id", VNum 1); ("description", VStr "")]
           ltac:(eapply Ready; reflexivity)); reflexivity.
Defined.

(** [read_returns_matching_rows] on the sample table: channel [c1] holds
    the tasks 1 and 5. *)
Lemma read_returns_matching_rows_witness :
  submitted (trace (fst (run healthy get_c1 config))) =
    [VStr "select id, description, isCompleted, objectId from dbo.Todo where channelOrChatId = 'c1'"] /\
  snd (run healthy get_c1 config) =
    Ret (mkResponse 200
           (VArr [VObj [("id", VNum 1); ("description", VStr "Buy milk");
                        ("isCompleted", VBool false); ("objectId", VStr "u1")];
                  VObj [("id", VNum 5); ("description", VStr "Ship it");
                        ("isCompleted", VBool false); ("objectId", VStr "u2")]])).
Proof.
  apply (read_returns_matching_rows healthy get_c1 config (VStr "u1") "c1" table
           ltac:(eapply Ready; reflexivity)); reflexivity.
Defined.


(** C1 (defect of the code).  The store rejects the statement of a read
    request and the driver reports the error through the request
    callback, in a later turn of the event loop.  The callback rethrows
    it there: the exception is caught by nothing, the promise of
    [execQuery] is never settled, the handler yields no response and the
    connection is not closed. *)
Theorem query_error_escapes_handler :
  run (rejecting syntax_error) get_obrien config =
    (mkSt [LoadConfiguration; GetConfig;
           NewConnection (VObj [("server", VStr "sql.example")]);
           NewCredential (VStr "sso-token"); GetUserInfo;
           ExecSql (VStr "select id, description, isCompleted, objectId from dbo.Todo where channelOrChatId = 'o'brien'")]
          (Some (mkConnection (VObj [("server", VStr "sql.example")])))
          [syntax_error],
     Hang).
Proof. reflexivity. Qed.

(** C2 (defect of the code, the one of C1).  The store rejects the
    statement of a read request and reports the error through the request
    callback.  The connection was acquired, but the handler never leaves
    its [try] block: [connection.close()] is never called and no response
    is returned. *)
Theorem connection_not_released_on_query_error :
  connection (fst (run (rejecting syntax_error) get_obrien config)) =
    Some (mkConnection (VObj [("server", VStr "sql.example")])) /\
  closes (trace (fst (run (rejecting syntax_error) get_obrien config))) = 0 /\
  snd (run (rejecting syntax_error) get_obrien config) = Hang.
Proof. repeat split. Qed.

(** The [error] argument of the ['connect'] event has no influence on a
    run. *)
Lemma connect_error_unobserved l g n error error' c u x cl req config :
  run (mkWorld l g n (Some error) c u x cl) req config =
  run (mkWorld l g n (Some error') c u x cl) req config.
Proof. reflexivity. Qed.

(** C5 (defect of the code).  The connection cannot be established: the
    ['connect'] event carries an error.  The handler goes on all the
    same: it builds the credential, asks for the user and hands the
    statement to the driver; the response is a 500 only because the
    driver refuses the request, and its message is not that of the
    connection error. *)
Theorem connect_error_is_ignored :
  connect unreachable = Some (Some socket_error) /\
  run unreachable get_c1 config =
    (mkSt [LoadConfiguration; GetConfig;
           NewConnection (VObj [("server", VStr "sql.example")]);
           NewCredential (VStr "sso-token"); GetUserInfo;
           ExecSql (VStr "select id, description, isCompleted, objectId from dbo.Todo where channelOrChatId = 'c1'");
           Close]
          (Some (mkConnection (VObj [("server", VStr "sql.example")])))
          [],
     Ret (mkResponse 500 (VObj [("error", message invalid_state)]))).
Proof. split; reflexivity. Qed.

End TaskStoreFacts.

(* ===================================================================== *)
(** ** Facts about the notification handler *)
(* ===================================================================== *)

Module NotificationFacts.

Import Js Async Notification.
Local Open Scope async_scope.

Ltac reduce :=
  cbv beta iota zeta delta
    [bind ret throw hang await lift call modify gets try_catch emit].

(** Every step of [notify] is a library call that returns or throws, so
    [notify] itself returns or throws. *)
Lemma notify_settles w t : snd (notify w t) <> Hang.
Proof.
  unfold notify. reduce.
  destruct (createMicrosoftGraphClientWithCredential w); reduce;
    [cbn; discriminate | ].
  destruct (getMe w) as [userProfile | ]; reduce; [ | cbn; discriminate].
  destruct (getProp userProfile "id") as [userId | ]; reduce;
    [ | cbn; discriminate].
  destruct (getInstallationId w userId) as [installationId | ]; reduce;
    [ | cbn; discriminate].
  destruct (newTeamsFx w); reduce; [cbn; discriminate | ].
  destruct (createMicrosoftGraphClient w); reduce; [cbn; discriminate | ].
  destruct (post w _ _); cbn; discriminate.
Qed.

(** The three failures of the notification pipeline. *)
Lemma profile_failure w t e :
  createMicrosoftGraphClientWithCredential w = None ->
  getMe w = Throws e ->
  snd (notify w t) = Throw e.
Proof. intros H1 H2. unfold notify. reduce. rewrite H1. reduce. rewrite H2. reflexivity. Qed.

Lemma installation_failure w t userProfile userId e :
  createMicrosoftGraphClientWithCredential w = None ->
  getMe w = Ok userProfile ->
  getProp userProfile "id" = Ok userId ->
  getInstallationId w userId = Throws e ->
  snd (notify w t) = Throw e.
Proof.
  intros H1 H2 H3 H4. unfold notify. reduce.
  rewrite H1. reduce. rewrite H2. reduce. rewrite H3. reduce. rewrite H4.
  reflexivity.
Qed.

Lemma posting_failure w t userProfile userId installationId e :
  createMicrosoftGraphClientWithCredential w = None ->
  getMe w = Ok userProfile ->
  getProp userProfile "id" = Ok userId ->
  getInstallationId w userId = Ok installationId ->
  newTeamsFx w = None ->
  createMicrosoftGraphClient w = None ->
  post w ("users/" ++ toString userId ++ "/teamwork/sendActivityNotification")
       (postbody userId installationId) = Some e ->
  snd (notify w t) = Throw e.
Proof.
  intros H1 H2 H3 H4 H5 H6 H7. unfold notify. reduce.
  rewrite H1. reduce. rewrite H2. reduce. rewrite H3. reduce. rewrite H4. reduce.
  rewrite H5. reduce. rewrite H6. reduce. rewrite H7. reflexivity.
Qed.

(** C6.  When the context carries no access token ([AccessToken] is
    absent, or present with a falsy value), the handler returns status
    400 with an error body, and the only call it has made is the log
    line: the on-behalf-of credential is never constructed. *)
Theorem missing_token_is_rejected w req teamsfxContext accessToken :
  getProp teamsfxContext "AccessToken" = Ok accessToken ->
  truthy accessToken = false ->
  snd (run w req teamsfxContext []) =
    Ret (mkResponse 400
           (VObj [("error", VStr "No access token was found in request header.")])) /\
  fst (run w req teamsfxContext []) =
    [ContextLog "HTTP trigger function processed a request."] /\
  filter is_credential (fst (run w req teamsfxContext [])) = [].
Proof.
  intros Htoken Hfalsy.
  assert (Hrun : run w req teamsfxContext [] =
                 ([ContextLog "HTTP trigger function processed a request."],
                  Ret missing_token)).
  { unfold run. reduce. rewrite Htoken. reduce. rewrite Hfalsy. reflexivity. }
  rewrite Hrun. repeat split.
Qed.

(** C7.  When the token is present and the credential is constructed, the
    handler returns its original response: status 200 and a body whose
    only property is the echo of the request headers.  When a step of the
    notification pipeline fails with [e], the calls of the run are those
    of the pipeline up to the failure followed by [console.log(e)]:
    the failure is logged and swallowed. *)
Theorem notification_failure_is_swallowed w req teamsfxContext accessToken :
  getProp teamsfxContext "AccessToken" = Ok accessToken ->
  truthy accessToken = true ->
  newOnBehalfOfUserCredential w accessToken (oboAuthConfig w) = None ->
  let started :=
    [ContextLog "HTTP trigger function processed a request.";
     NewOnBehalfOfUserCredential accessToken (oboAuthConfig w)] in
  snd (run w req teamsfxContext []) =
    Ret (mkResponse 200
           (VObj [("receivedHTTPRequestBody", or_else (req_headers req) (VStr ""))])) /\
  (forall e,
      snd (notify w started) = Throw e ->
      fst (run w req teamsfxContext []) =
        (fst (notify w started) ++ [ConsoleLog e])%list) /\
  (snd (notify w started) = Ret tt ->
   fst (run w req teamsfxContext []) = fst (notify w started)).
Proof.
  intros Htoken Htruthy Hcredential started.
  pose proof (notify_settles w started) as Hsettles.
  unfold run. reduce. rewrite Htoken. reduce. rewrite Htruthy. cbn [negb].
  rewrite Hcredential. reduce. cbn [app]. fold started.
  destruct (notify w started) as [t [[] | e | ]]; cbn [fst snd] in *.
  - split; [reflexivity | split]; [intros e He; discriminate | reflexivity].
  - split; [reflexivity | split]; [ | intros He; discriminate].
    intros e' He'. inversion He'. reflexivity.
  - congruence.
Qed.

Import NotificationScenario.

(** [missing_token_is_rejected] on a context without [AccessToken]. *)
Lemma missing_token_witness :
  snd (run refusing request without_token []) =
    Ret (mkResponse 400
           (VObj [("error", VStr "No access token was found in request header.")])) /\
  fst (run refusing request without_token []) =
    [ContextLog "HTTP trigger function processed a request."] /\
  filter is_credential (fst (run refusing request without_token [])) = [].
Proof.
  apply (missing_token_is_rejected refusing request without_token VUndefined);
    reflexivity.
Defined.

(** [notification_failure_is_swallowed] on a run whose notification is
    refused by the graph service. *)
Lemma notification_failure_witness :
  snd (run refusing request with_token []) =
    Ret (mkResponse 200 (VObj [("receivedHTTPRequestBody", headers)])) /\
  In (ConsoleLog forbidden) (fst (run refusing request with_token [])).
Proof.
  destruct (notification_failure_is_swallowed refusing request with_token
              (VStr "sso-token") eq_refl eq_refl eq_refl)
    as (Hresponse & Hfailure & _).
  split; [exact Hresponse | ].
  rewrite (Hfailure forbidden eq_refl). apply in_or_app. right. left. reflexivity.
Defined.

End NotificationFacts.

(* ===================================================================== *)
(** ** More facts about result rows *)
(* ===================================================================== *)

Module RowFacts.

Import Js TaskStore.

Lemma has_key_in k fs : has_key k fs = true <-> In k (map fst fs).
Proof.
  induction fs as [| [k0 v0] fs IH]; cbn.
  - split; [discriminate | tauto].
  - rewrite orb_true_iff, IH, String.eqb_eq. split; intros [H | H]; auto.
Qed.

Lemma has_key_false k fs : has_key k fs = false <-> ~ In k (map fst fs).
Proof.
  rewrite <- has_key_in. destruct (has_key k fs); split; congruence.
Qed.

Lemma lookup_absent k fs : has_key k fs = false -> lookup k fs = VUndefined.
Proof.
  induction fs as [| [k0 v0] fs IH]; cbn; [reflexivity | ].
  destruct (String.eqb k k0); cbn; [discriminate | exact IH].
Qed.

Lemma lookup_app k fs gs :
  lookup k (fs ++ gs) = if has_key k fs then lookup k fs else lookup k gs.
Proof.
  induction fs as [| [k0 v0] fs IH]; cbn; [reflexivity | ].
  destruct (String.eqb k k0); cbn; [reflexivity | exact IH].
Qed.

Lemma lookup_replace_same k v fs :
  has_key k fs = true -> lookup k (replace_key k v fs) = v.
Proof.
  induction fs as [| [k0 v0] fs IH]; cbn; [discriminate | ].
  destruct (String.eqb k k0) eqn:E; cbn; rewrite E; auto.
Qed.

Lemma lookup_replace_other k k' v fs :
  k' <> k -> lookup k' (replace_key k v fs) = lookup k' fs.
Proof.
  intros Hne. induction fs as [| [k0 v0] fs IH]; cbn; [reflexivity | ].
  destruct (String.eqb k k0) eqn:E; cbn.
  - apply String.eqb_eq in E. subst k0.
    apply String.eqb_neq in Hne. rewrite Hne. reflexivity.
  - rewrite IH. reflexivity.
Qed.

Lemma lookup_insert_same n k v fs :
  has_key k fs = false -> lookup k (insert_index n k v fs) = v.
Proof.
  induction fs as [| [k0 v0] fs IH]; cbn; intros H.
  - rewrite String.eqb_refl. reflexivity.
  - apply orb_false_iff in H. destruct H as [Hk Hfs].
    destruct (array_index k0) as [m | ]; [destruct (m <? n)%N | ]; cbn;
      rewrite ?Hk, ?String.eqb_refl; auto.
Qed.

Lemma lookup_insert_other n k k' v fs :
  k' <> k -> lookup k' (insert_index n k v fs) = lookup k' fs.
Proof.
  intros Hne. apply String.eqb_neq in Hne.
  induction fs as [| [k0 v0] fs IH]; cbn.
  - rewrite Hne. reflexivity.
  - destruct (array_index k0) as [m | ]; [destruct (m <? n)%N | ]; cbn;
      rewrite ?Hne, ?IH; reflexivity.
Qed.

(** The assignment [row[k] = v] followed by a read: the key that was
    assigned holds the new value, every other key holds what it held. *)
Lemma obj_set_lookup fs k v k' :
  lookup k' (obj_set fs k v) = if String.eqb k' k then v else lookup k' fs.
Proof.
  unfold obj_set. destruct (String.eqb_spec k' k) as [-> | Hne].
  - destruct (has_key k fs) eqn:Hk.
    + apply lookup_replace_same. exact Hk.
    + destruct (array_index k) as [n | ].
      * apply lookup_insert_same. exact Hk.
      * rewrite lookup_app, Hk. cbn. rewrite String.eqb_refl. reflexivity.
  - destruct (has_key k fs) eqn:Hk.
    + apply lookup_replace_other. exact Hne.
    + destruct (array_index k) as [n | ].
      * apply lookup_insert_other. exact Hne.
      * rewrite lookup_app. destruct (has_key k' fs) eqn:Hk'; [reflexivity | ].
        cbn. apply String.eqb_neq in Hne. rewrite Hne.
        symmetry. apply lookup_absent. exact Hk'.
Qed.

Lemma keys_replace k v fs : map fst (replace_key k v fs) = map fst fs.
Proof.
  induction fs as [| [k0 v0] fs IH]; cbn; [reflexivity | ].
  destruct (String.eqb k k0); cbn; [ | rewrite IH]; reflexivity.
Qed.

Lemma keys_insert n k v fs k' :
  In k' (map fst (insert_index n k v fs)) <-> k' = k \/ In k' (map fst fs).
Proof.
  induction fs as [| [k0 v0] fs IH]; cbn.
  - intuition.
  - destruct (array_index k0) as [m | ]; [destruct (m <? n)%N | ]; cbn;
      rewrite ?IH; intuition.
Qed.

Lemma nodup_insert n k v fs :
  ~ In k (map fst fs) -> NoDup (map fst fs) ->
  NoDup (map fst (insert_index n k v fs)).
Proof.
  induction fs as [| [k0 v0] fs IH]; cbn; intros Hk Hnd.
  - constructor; [tauto | constructor].
  - inversion Hnd as [| ? ? Hk0 Hnd']; subst.
    destruct (array_index k0) as [m | ]; [destruct (m <? n)%N | ]; cbn.
    + constructor.
      * rewrite keys_insert. intros [-> | Hin]; [apply Hk; auto | exact (Hk0 Hin)].
      * apply IH; [tauto | exact Hnd'].
    + constructor; [exact Hk | exact Hnd].
    + constructor; [exact Hk | exact Hnd].
Qed.

(** An object whose keys are distinct keeps them distinct under
    assignment. *)
Lemma obj_set_nodup fs k v :
  NoDup (map fst fs) -> NoDup (map fst (obj_set fs k v)).
Proof.
  intros Hnd. unfold obj_set. destruct (has_key k fs) eqn:Hk.
  - rewrite keys_replace. exact Hnd.
  - apply has_key_false in Hk. destruct (array_index k) as [n | ].
    + apply nodup_insert; assumption.
    + rewrite map_app. cbn. apply NoDup_app.
      * exact Hnd.
      * constructor; [tauto | constructor].
      * intros x Hx [<- | []]. exact (Hk Hx).
Qed.

Lemma keys_obj_set fs k v k' :
  In k' (map fst (obj_set fs k v)) <-> k' = k \/ In k' (map fst fs).
Proof.
  unfold obj_set. destruct (has_key k fs) eqn:Hk.
  - rewrite keys_replace. apply has_key_in in Hk.
    split; [auto | intros [-> | H]; auto].
  - destruct (array_index k) as [n | ].
    + apply keys_insert.
    + rewrite map_app, in_app_iff. cbn. intuition.
Qed.

Lemma has_key_obj_set_other fs k v k' :
  k' <> k -> has_key k' (obj_set fs k v) = has_key k' fs.
Proof.
  intros Hne. apply Bool.eq_iff_eq_true.
  rewrite !has_key_in, keys_obj_set. intuition.
Qed.

Lemma assign_inert fs c :
  inert c ->
  has_key "__proto__" fs = false ->
  assign (fs, ObjectPrototype) (colName c) (value c) = (store fs c, ObjectPrototype).
Proof.
  intros Hinert Hfs. unfold assign, store.
  destruct (String.eqb_spec (colName c) "__proto__") as [Heq | Hne].
  - rewrite Heq, Hfs. cbn. specialize (Hinert Heq).
    destruct (value c); try discriminate; reflexivity.
  - reflexivity.
Qed.

Lemma store_no_proto fs c :
  has_key "__proto__" fs = false -> has_key "__proto__" (store fs c) = false.
Proof.
  intros Hfs. unfold store.
  destruct (String.eqb_spec (colName c) "__proto__") as [Heq | Hne];
    [exact Hfs | ].
  rewrite has_key_obj_set_other; [exact Hfs | congruence].
Qed.

Lemma fold_assign_inert columns :
  forall fs,
    Forall inert columns ->
    has_key "__proto__" fs = false ->
    fold_left (fun row c => assign row (colName c) (value c)) columns
              (fs, ObjectPrototype) =
      (fold_left store columns fs, ObjectPrototype).
Proof.
  induction columns as [| c columns IH]; intros fs Hall Hfs; cbn [fold_left].
  - reflexivity.
  - inversion Hall as [| ? ? Hc Hall']; subst.
    rewrite (assign_inert fs c Hc Hfs).
    apply IH; [exact Hall' | apply store_no_proto; exact Hfs].
Qed.

Lemma fold_store_nodup columns :
  forall fs, NoDup (map fst fs) -> NoDup (map fst (fold_left store columns fs)).
Proof.
  induction columns as [| c columns IH]; intros fs Hnd; cbn [fold_left].
  - exact Hnd.
  - apply IH. unfold store. destruct (String.eqb (colName c) "__proto__");
      [exact Hnd | apply obj_set_nodup; exact Hnd].
Qed.

Lemma fold_store_keys columns :
  forall fs k,
    In k (map fst (fold_left store columns fs)) <->
    In k (map fst fs) \/ (In k (map colName columns) /\ k <> "__proto__").
Proof.
  induction columns as [| c columns IH]; intros fs k; cbn [fold_left map In].
  - tauto.
  - rewrite IH. unfold store.
    destruct (String.eqb_spec (colName c) "__proto__") as [Heq | Hne].
    + split; [tauto | ]. intros [H | [[H | H] Hk]]; auto. congruence.
    + rewrite keys_obj_set. split.
      * intros [[-> | H] | [H Hk]]; auto.
      * intros [H | [[H | H] Hk]]; auto.
Qed.

Lemma find_last A (p : A -> bool) l x :
  find p (l ++ [x]) =
    match find p l with
    | Some y => Some y
    | None => if p x then Some x else None
    end.
Proof.
  induction l as [| a l IH]; cbn; [reflexivity | ].
  destruct (p a); [reflexivity | exact IH].
Qed.

Lemma fold_store_lookup k columns :
  k <> "__proto__" ->
  forall fs,
    lookup k (fold_left store columns fs) =
      match find (fun c => String.eqb k (colName c)) (rev columns) with
      | Some c => value c
      | None => lookup k fs
      end.
Proof.
  intros Hk. induction columns as [| c columns IH]; intros fs; cbn [fold_left rev].
  - reflexivity.
  - rewrite IH, find_last.
    destruct (find (fun c0 => String.eqb k (colName c0)) (rev columns));
      [reflexivity | ].
    unfold store.
    destruct (String.eqb_spec (colName c) "__proto__") as [Heq | Hne].
    + rewrite Heq. apply String.eqb_neq in Hk. rewrite Hk. reflexivity.
    + rewrite obj_set_lookup. destruct (String.eqb k (colName c)); reflexivity.
Qed.

Lemma row_object_inert columns :
  Forall inert columns ->
  row_object columns = VObj (fold_left store columns []).
Proof.
  intros Hall. unfold row_object.
  rewrite (fold_assign_inert columns [] Hall eq_refl). reflexivity.
Qed.

(** X14.  For a row none of whose columns changes the prototype, the own
    properties of the row object are exactly the column names other than
    [__proto__], each held once: a column named [__proto__] leaves no
    property, every other column leaves one under its name. *)
Theorem row_object_keys columns :
  Forall inert columns ->
  exists fields,
    row_object columns = VObj fields /\
    NoDup (map fst fields) /\
    forall k,
      In k (map fst fields) <-> In k (map colName columns) /\ k <> "__proto__".
Proof.
  intros Hall. exists (fold_left store columns []).
  split; [apply row_object_inert; exact Hall | split].
  - apply fold_store_nodup. constructor.
  - intros k. rewrite fold_store_keys. cbn. tauto.
Qed.

(** X15.  For a row none of whose columns changes the prototype, and a
    name [k] other than [__proto__]: the row object has an own property
    [k] exactly when some column is named [k], and the property then
    holds the value of the last such column. *)
Theorem row_object_last_wins k columns :
  Forall inert columns ->
  k <> "__proto__" ->
  exists fields,
    row_object columns = VObj fields /\
    has_key k fields = existsb (fun c => String.eqb k (colName c)) columns /\
    forall c,
      find (fun c => String.eqb k (colName c)) (rev columns) = Some c ->
      lookup k fields = value c.
Proof.
  intros Hall Hk. exists (fold_left store columns []).
  split; [apply row_object_inert; exact Hall | split].
  - apply Bool.eq_iff_eq_true.
    rewrite has_key_in, fold_store_keys, existsb_exists. cbn. split.
    + intros [[] | [Hin _]]. apply in_map_iff in Hin.
      destruct Hin as (c & Hc & Hin). exists c. split; [exact Hin | ].
      apply String.eqb_eq. congruence.
    + intros (c & Hin & Hc). apply String.eqb_eq in Hc. right. split; [ | exact Hk].
      apply in_map_iff. exists c. split; [congruence | exact Hin].
  - intros c Hc. rewrite (fold_store_lookup k columns Hk), Hc. reflexivity.
Qed.

(** The row of [select 1 as id, 'x' as [__proto__], 7 as id]. *)
Example row_object_odd_row :
  row_object [mkColumn "id" (VNum 1); mkColumn "__proto__" (VStr "x");
              mkColumn "id" (VNum 7)] =
    VObj [("id", VNum 7)].
Proof. reflexivity. Qed.

(** Once [null] was assigned to [__proto__] the accessor is gone, and a
    second column of that name leaves an own property. *)
Example row_object_null_prototype :
  row_object [mkColumn "__proto__" VNull; mkColumn "__proto__" (VNum 5)] =
    VObj [("__proto__", VNum 5)].
Proof. reflexivity. Qed.

End RowFacts.

(* ===================================================================== *)
(** ** More facts about the task-store handler *)
(* ===================================================================== *)

Module TaskStoreMore.

Import Js Async AsyncFacts TaskStore Store TaskStoreFacts.
Local Open Scope async_scope.

(** *** The promise of [execQuery] *)

Lemma run_tick_objects t :
  forall res resolved,
    Forall (fun v => exists fields, v = VObj fields) res ->
    Forall (fun v => exists fields, v = VObj fields)
           (fst (fst (run_tick t res resolved))).
Proof.
  induction t as [| e t IH]; intros res resolved Hres; cbn [run_tick].
  - exact Hres.
  - destruct e as [columns | [err | ] | | err]; cbn [fst]; auto.
    apply IH. apply Forall_app. split; [exact Hres | ].
    constructor; [ | constructor]. unfold row_object. eauto.
Qed.

Lemma settle_objects script :
  forall first res v,
    Forall (fun v => exists fields, v = VObj fields) res ->
    snd (settle first script res) = Ret v ->
    exists rows,
      v = VArr rows /\ Forall (fun v => exists fields, v = VObj fields) rows.
Proof.
  induction script as [| t later IH]; intros first res v Hres; cbn [settle].
  - discriminate.
  - pose proof (run_tick_objects t res false Hres) as Ht.
    destruct (run_tick t res false) as [[res' resolved] thrown]. cbn [fst] in Ht.
    destruct thrown as [e | ]; destruct first; destruct resolved; cbn [snd];
      try (intros H; inversion H; eauto; fail);
      try (apply IH; exact Ht).
    destruct (settle false later res') as [escaped r] eqn:E. cbn [snd].
    intros H. apply (IH false res' v Ht). rewrite E. exact H.
Qed.

(** X12.  The promise of [execQuery] is rejected only by an exception thrown in
    the first turn, inside the promise executor, before
    ['requestCompleted']; an error that the driver reports in a later
    turn never rejects it. *)
Theorem rejected_only_in_first_turn first script res e :
  snd (settle first script res) = Throw e ->
  first = true /\
  exists t later res',
    script = t :: later /\ run_tick t res false = (res', false, Some e).
Proof.
  assert (Hlater : forall script res, snd (settle false script res) <> Throw e).
  { clear. intros script. induction script as [| t later IH]; intros res;
      cbn [settle]; [discriminate | ].
    destruct (run_tick t res false) as [[res' resolved] [e' | ]];
      destruct resolved; cbn [snd]; try discriminate; try apply IH.
    specialize (IH res'). destruct (settle false later res'). exact IH. }
  destruct script as [| t later]; cbn [settle]; [discriminate | ].
  destruct (run_tick t res false) as [[res' resolved] [e' | ]] eqn:Et;
    destruct first, resolved; cbn [snd]; try discriminate.
  - intros H. inversion H; subst. split; [reflexivity | eauto].
  - specialize (Hlater later res'). destruct (settle false later res').
    intros H. contradiction.
  - intros H. exfalso. exact (Hlater later res' H).
  - intros H. exfalso. exact (Hlater later res' H).
Qed.

(** An exception reaches the event loop only from a later turn: whatever
    is thrown in the first turn is absorbed by the promise. *)
Lemma first_turn_absorbs t res :
  fst (settle true [t] res) = [].
Proof.
  cbn [settle].
  destruct (run_tick t res false) as [[res' resolved] [e | ]];
    destruct resolved; reflexivity.
Qed.

(** X13.  [execQuery] on a request that the driver completes: the statement is
    handed to the driver once, nothing else changes, and the promise is
    fulfilled with one object per row, in the order of arrival. *)
Theorem execQuery_collects_rows w query c rows s :
  delivers (execSql w query) rows ->
  execQuery w query c s =
    (mkSt (trace s ++ [ExecSql query]) (connection s) (uncaught s),
     Ret (VArr (map row_object rows))).
Proof.
  intros Hrows. unfold execQuery. rewrite (settle_delivers _ _ Hrows).
  reduce. rewrite app_nil_r. reflexivity.
Qed.

(** *** Every run of the handler *)

(** Case analysis of a run [H : run w req config = (s, r)] along the
    library calls, in the order the handler makes them. *)
Ltac reduce_in H :=
  cbv beta iota zeta delta
    [bind ret throw hang await lift call modify gets finally try_catch
     emit set_connection escape trace connection uncaught init] in H.

Ltac open_run H :=
  unfold run, handler, handler_try, getSQLConnection, handler_finally,
    handler_catch, execQuery in H;
  reduce_in H.

Ltac next_call H :=
  match type of H with
  | context [match ?x with _ => _ end] =>
      lazymatch x with
      | context [match _ with _ => _ end] => fail
      | _ => destruct x eqn:?; reduce_in H
      end
  end.

Ltac explore H := open_run H; repeat next_call H; inversion H; subst; clear H.

(** X4.  A response of the handler is either status 200 with an array of row
    objects as body, or status 500 with a body whose only property is
    [error]. *)
Theorem response_shape w req config s response :
  run w req config = (s, Ret response) ->
  (status response = 200%Z /\
   exists rows,
     body response = VArr rows /\
     Forall (fun v => exists fields, v = VObj fields) rows) \/
  (status response = 500%Z /\
   exists e, body response = VObj [("error", message e)]).
Proof.
  intros H. explore H; cbn [status body]; try (right; eauto; fail).
  all: left; split; [reflexivity | ].
  all: match goal with
       | E : settle true ?sc [] = (_, Ret ?v) |- _ =>
           apply (settle_objects sc true [] v (Forall_nil _)); rewrite E; reflexivity
       end.
Qed.

(** X5.  The handler's promise is rejected only by the two calls that are not
    protected by the [try] block: [loadConfiguration()] before it, and
    [connection.close()] in the [finally] block. *)
Theorem rejection_origin w req config s e :
  run w req config = (s, Throw e) ->
  loadConfiguration w = Some e \/ close w = Some e.
Proof.
  intros H. explore H; auto.
Qed.

Ltac shape n b :=
  exists n; exists b; split;
  [reflexivity | intros; first [lia | discriminate]].

(** X6.  The library calls of a run are an initial part of one fixed sequence
    (configuration, connection, credential, user, statement), each made
    at most once, followed by [close] when the run closes the connection,
    which it only does once the connection was created. *)
Theorem calls_in_order w req config s r :
  run w req config = (s, r) ->
  exists cfg accessToken query n (closed : bool),
    trace s =
      (firstn n [LoadConfiguration; GetConfig; NewConnection cfg;
                 NewCredential accessToken; GetUserInfo; ExecSql query]
       ++ (if closed then [Close] else []))%list /\
    (closed = true -> 3 <= n).
Proof.
  intros H. explore H; cbn [trace app]; do 3 eexists;
    first [ shape 1%nat false | shape 2%nat false | shape 3%nat false
          | shape 3%nat true | shape 4%nat true | shape 5%nat true
          | shape 6%nat true | shape 6%nat false ].
  Unshelve. all: exact VUndefined.
Qed.

(** *** Failures before the statement *)

(** X7.  When the connection configuration cannot be obtained, or the
    connection object cannot be created, the request fails with status
    500 and the message of the exception; the handler builds no
    credential, runs no statement and, having no connection, closes
    none. *)
Theorem configuration_failure w req config e :
  loadConfiguration w = None ->
  (getConfig w = Throws e ->
   run w req config =
     (mkSt [LoadConfiguration; GetConfig] None [],
      Ret (mkResponse 500 (VObj [("error", message e)])))) /\
  (forall cfg,
      getConfig w = Ok cfg ->
      newConnection w = Some e ->
      run w req config =
        (mkSt [LoadConfiguration; GetConfig; NewConnection cfg] None [],
         Ret (mkResponse 500 (VObj [("error", message e)])))).
Proof.
  intros Hload. split; [intros Hcfg | intros cfg Hcfg Hnew];
    unfold run, handler, handler_try, getSQLConnection, handler_finally,
      handler_catch; reduce; step Hload; step Hcfg; [ | step Hnew]; reflexivity.
Qed.

(** X8.  When the ['connect'] event is never emitted, the handler waits for
    ever: it yields no response, makes no further call and never closes
    the connection object it created. *)
Theorem never_connected w req config cfg :
  loadConfiguration w = None ->
  getConfig w = Ok cfg ->
  newConnection w = None ->
  connect w = None ->
  run w req config =
    (mkSt [LoadConfiguration; GetConfig; NewConnection cfg] None [], Hang).
Proof.
  intros Hload Hcfg Hnew Hconnect.
  unfold run, handler, handler_try, getSQLConnection, handler_finally,
    handler_catch; reduce.
  step Hload. step Hcfg. step Hnew. step Hconnect. reflexivity.
Qed.

(** X9.  When the identity of the caller cannot be derived, because the
    credential constructor throws or because [getUserInfo] is rejected,
    the request fails with status 500 and the message of the exception;
    no statement reaches the driver and the connection is closed. *)
Theorem identity_failure w req config cfg error method accessToken e :
  loadConfiguration w = None ->
  getConfig w = Ok cfg ->
  newConnection w = None ->
  connect w = Some error ->
  close w = None ->
  toLowerCase (req_method req) = Ok method ->
  getProp config "AccessToken" = Ok accessToken ->
  newCredential w accessToken = Some e \/
  (newCredential w accessToken = None /\ getUserInfo w = Throws e) ->
  snd (run w req config) = Ret (mkResponse 500 (VObj [("error", message e)])) /\
  submitted (trace (fst (run w req config))) = [] /\
  closes (trace (fst (run w req config))) = 1.
Proof.
  intros Hload Hcfg Hnew Hconnect Hclose Hmethod Htoken Hfail.
  unfold run, handler, handler_try, getSQLConnection, handler_finally,
    handler_catch; reduce.
  step Hload. step Hcfg. step Hnew. step Hconnect. step Hmethod. step Htoken.
  destruct Hfail as [Hcred | [Hcred Huser]].
  - step Hcred. step Hclose. repeat split.
  - step Hcred. step Huser. step Hclose. repeat split.
Qed.

(** *** Failures at the statement *)

(** [run_ready] with the calls spelled out. *)
Lemma run_ready_calls w req config objectId method :
  ready w config objectId ->
  toLowerCase (req_method req) = Ok method ->
  exists cfg accessToken,
    let before := [LoadConfiguration; GetConfig; NewConnection cfg;
                   NewCredential accessToken; GetUserInfo] in
    run w req config =
      match build_query method req objectId with
      | Throws e =>
          (mkSt (before ++ [Close]) (Some (mkConnection cfg)) [],
           after_close w (Ret (mkResponse 500 (VObj [("error", message e)]))))
      | Ok q =>
          match settle true (execSql w q) [] with
          | (escaped, Ret v) =>
              (mkSt (before ++ [ExecSql q; Close]) (Some (mkConnection cfg)) escaped,
               after_close w (Ret (mkResponse 200 v)))
          | (escaped, Throw e) =>
              (mkSt (before ++ [ExecSql q; Close]) (Some (mkConnection cfg)) escaped,
               after_close w (Ret (mkResponse 500 (VObj [("error", message e)]))))
          | (escaped, Hang) =>
              (mkSt (before ++ [ExecSql q]) (Some (mkConnection cfg)) escaped, Hang)
          end
      end.
Proof.
  intros [cfg accessToken currentUser error Hload Hcfg Hnew Hconnect Htoken Hcred
            Huser Hid] Hmethod.
  exists cfg, accessToken. cbv zeta.
  unfold run, handler, handler_try, getSQLConnection, handler_finally,
    handler_catch, execQuery, after_close.
  reduce. step Hload. step Hcfg. step Hnew. step Hconnect. step Hmethod.
  step Htoken. step Hcred. step Huser. step Hid.
  destruct (build_query method req objectId) as [q | e]; reduce.
  - destruct (settle true (execSql w q) []) as [escaped [v | e | ]]; reduce;
      try reflexivity; destruct (close w); reflexivity.
  - destruct (close w); reflexivity.
Qed.

(** X10.  An update or create request without a body fails with status 500:
    reading a property of the missing body throws, no statement reaches
    the driver and the connection is closed. *)
Theorem missing_body_is_rejected w req config objectId method :
  ready w config objectId ->
  close w = None ->
  toLowerCase (req_method req) = Ok method ->
  method = "put" \/ method = "post" ->
  req_body req = VUndefined \/ req_body req = VNull ->
  exists e,
    snd (run w req config) = Ret (mkResponse 500 (VObj [("error", message e)])) /\
    submitted (trace (fst (run w req config))) = [] /\
    closes (trace (fst (run w req config))) = 1.
Proof.
  intros Hready Hclose Hmethod Hm Hbody.
  destruct (run_ready_calls w req config objectId method Hready Hmethod)
    as (cfg & accessToken & Hrun). cbv zeta in Hrun.
  assert (Hq : exists e, build_query method req objectId = Throws e).
  { unfold build_query.
    destruct Hm as [-> | ->], Hbody as [-> | ->];
      cbn [String.eqb Ascii.eqb Bool.eqb getProp rbind]; eauto. }
  destruct Hq as [e Hq]. exists e.
  rewrite Hrun, Hq. unfold after_close. rewrite Hclose. repeat split.
Qed.

(** X11.  When the driver throws, or reports an error through the request
    callback, while the statement is handed to it (in the first turn,
    before ['requestCompleted']), the request fails with status 500 and
    the message of the error, nothing escapes to the event loop and the
    connection is closed. *)
Theorem immediate_query_failure w req config objectId method q t later res e :
  ready w config objectId ->
  close w = None ->
  toLowerCase (req_method req) = Ok method ->
  build_query method req objectId = Ok q ->
  execSql w q = t :: later ->
  run_tick t [] false = (res, false, Some e) ->
  snd (run w req config) = Ret (mkResponse 500 (VObj [("error", message e)])) /\
  uncaught (fst (run w req config)) = [] /\
  closes (trace (fst (run w req config))) = 1.
Proof.
  intros Hready Hclose Hmethod Hq Hscript Htick.
  destruct (run_ready_calls w req config objectId method Hready Hmethod)
    as (cfg & accessToken & Hrun). cbv zeta in Hrun.
  rewrite Hrun, Hq, Hscript. cbn [settle]. rewrite Htick.
  unfold after_close. rewrite Hclose. repeat split.
Qed.

(** *** Statements of create and read requests *)

(** X1.  For a create request with a body, whose libraries succeed up to the
    statement, the one statement handed to the driver is the text of the
    insert template with the string forms of the body's [description], of
    the caller's derived [objectId] and of the body's [channelOrChatId]
    put between its quotes as they are, and 1 for a truthy [isCompleted]
    of the body, 0 otherwise. *)
Theorem create_statement w req config objectId d c ch :
  ready w config objectId ->
  toLowerCase (req_method req) = Ok "post" ->
  getProp (req_body req) "description" = Ok d ->
  getProp (req_body req) "isCompleted" = Ok c ->
  getProp (req_body req) "channelOrChatId" = Ok ch ->
  submitted (trace (fst (run w req config))) =
    [VStr ("insert into dbo.Todo (description, objectId, isCompleted, channelOrChatId) values (N'"
           ++ toString d ++ "','" ++ toString objectId ++ "',"
           ++ (if truthy c then "1" else "0") ++ ",'" ++ toString ch ++ "')")].
Proof.
  intros Hready Hmethod Hd Hc Hch.
  apply (submitted_ready w req config objectId "post"); auto.
  unfold build_query, flag. cbn [String.eqb Ascii.eqb Bool.eqb].
  rewrite Hd, Hc, Hch. reflexivity.
Qed.

(** X2.  A read request whose query string has no [channelOrChatId] is not
    rejected: the statement selects the tasks whose [channelOrChatId] is
    the text [undefined]. *)
Theorem read_without_parameter w req config objectId fields :
  ready w config objectId ->
  toLowerCase (req_method req) = Ok "get" ->
  req_query req = VObj fields ->
  has_key "channelOrChatId" fields = false ->
  submitted (trace (fst (run w req config))) =
    [VStr "select id, description, isCompleted, objectId from dbo.Todo where channelOrChatId = 'undefined'"].
Proof.
  intros Hready Hmethod Hquery Hkey.
  apply (submitted_ready w req config objectId "get"); auto.
  unfold build_query. cbn [String.eqb Ascii.eqb Bool.eqb].
  rewrite Hquery. cbn [getProp rbind].
  rewrite (RowFacts.lookup_absent _ _ Hkey). reflexivity.
Qed.

(** X3.  The dispatch on the method ignores the case of its letters: two
    requests that differ only there have the same run. *)
Theorem method_case_insensitive w m m' query body config :
  lower m = lower m' ->
  run w (mkRequest (VStr m) query body) config =
  run w (mkRequest (VStr m') query body) config.
Proof.
  intros Hm.
  unfold run, handler, handler_try, build_query.
  cbn [req_method req_query req_body toLowerCase]. rewrite Hm. reflexivity.
Qed.

(** *** Sample runs *)

Import Scenario MoreScenario.

Lemma row_object_in_column_order_witness :
  row_object (task_columns (mkTask 1 "Buy milk" false "u1" "c1")) =
    VObj [("id", VNum 1); ("description", VStr "Buy milk");
          ("isCompleted", VBool false); ("objectId", VStr "u1")].
Proof.
  apply (row_object_in_column_order
           (task_columns (mkTask 1 "Buy milk" false "u1" "c1"))).
  - cbn. repeat constructor; cbn; intuition discriminate.
  - repeat constructor.
  - cbn. intuition discriminate.
Defined.

Lemma row_object_keys_witness :
  exists fields,
    row_object odd_row = VObj fields /\
    NoDup (map fst fields) /\
    forall k,
      In k (map fst fields) <-> In k (map colName odd_row) /\ k <> "__proto__".
Proof.
  apply (RowFacts.row_object_keys odd_row).
  repeat constructor; unfold inert; cbn; intros; first [reflexivity | discriminate].
Defined.

Lemma row_object_last_wins_witness :
  exists fields,
    row_object odd_row = VObj fields /\
    has_key "id" fields = existsb (fun c => String.eqb "id" (colName c)) odd_row /\
    forall c,
      find (fun c => String.eqb "id" (colName c)) (rev odd_row) = Some c ->
      lookup "id" fields = value c.
Proof.
  apply (RowFacts.row_object_last_wins "id" odd_row).
  - repeat constructor; unfold inert; cbn; intros; first [reflexivity | discriminate].
  - discriminate.
Defined.

Lemma rejected_only_in_first_turn_witness :
  true = true /\
  exists t later res',
    [[Callback (Some invalid_state)]] = t :: later /\
    run_tick t [] false = (res', false, Some invalid_state).
Proof.
  apply (rejected_only_in_first_turn true [[Callback (Some invalid_state)]] []
           invalid_state).
  reflexivity.
Defined.

Lemma execQuery_collects_rows_witness :
  execQuery healthy (VStr "select 1") (mkConnection VNull) init =
    (mkSt [ExecSql (VStr "select 1")] None [],
     Ret (VArr (map task_row (matching table "c1")))).
Proof.
  apply (execQuery_collects_rows healthy (VStr "select 1") (mkConnection VNull)
           (map task_columns (matching table "c1")) init).
  reflexivity.
Defined.

Lemma response_shape_witness :
  (200%Z = 200%Z /\
   exists rows,
     VArr (map task_row (matching table "c1")) = VArr rows /\
     Forall (fun v => exists fields, v = VObj fields) rows) \/
  (200%Z = 500%Z /\
   exists e, VArr (map task_row (matching table "c1")) = VObj [("error", message e)]).
Proof.
  apply (response_shape healthy get_c1 config
           (fst (run healthy get_c1 config))
           (mkResponse 200 (VArr (map task_row (matching table "c1"))))).
  reflexivity.
Defined.

Lemma rejection_origin_witness :
  loadConfiguration unclosable = Some already_closed \/
  close unclosable = Some already_closed.
Proof.
  apply (rejection_origin unclosable get_c1 config
           (fst (run unclosable get_c1 config)) already_closed).
  reflexivity.
Defined.

Lemma calls_in_order_witness :
  exists cfg accessToken query n (closed : bool),
    trace (fst (run healthy get_c1 config)) =
      (firstn n [LoadConfiguration; GetConfig; NewConnection cfg;
                 NewCredential accessToken; GetUserInfo; ExecSql query]
       ++ (if closed then [Close] else []))%list /\
    (closed = true -> 3 <= n).
Proof.
  apply (calls_in_order healthy get_c1 config _ (snd (run healthy get_c1 config))).
  reflexivity.
Defined.

Lemma configuration_failure_witness :
  run unconfigured get_c1 config =
    (mkSt [LoadConfiguration; GetConfig] None [],
     Ret (mkResponse 500 (VObj [("error", message no_connection_string)]))).
Proof.
  apply (proj1 (configuration_failure unconfigured get_c1 config
                  no_connection_string eq_refl)).
  reflexivity.
Defined.

Lemma never_connected_witness :
  run silent get_c1 config =
    (mkSt [LoadConfiguration; GetConfig;
           NewConnection (VObj [("server", VStr "sql.example")])] None [],
     Hang).
Proof.
  apply (never_connected silent get_c1 config
           (VObj [("server", VStr "sql.example")])); reflexivity.
Defined.

Lemma identity_failure_witness :
  snd (run expired get_c1 config) =
    Ret (mkResponse 500 (VObj [("error", message token_expired)])) /\
  submitted (trace (fst (run expired get_c1 config))) = [] /\
  closes (trace (fst (run expired get_c1 config))) = 1.
Proof.
  apply (identity_failure expired get_c1 config
           (VObj [("server", VStr "sql.example")]) None "get" (VStr "sso-token")
           token_expired); try reflexivity.
  right. split; reflexivity.
Defined.

Lemma missing_body_is_rejected_witness :
  exists e,
    snd (run healthy put_no_body config) =
      Ret (mkResponse 500 (VObj [("error", message e)])) /\
    submitted (trace (fst (run healthy put_no_body config))) = [] /\
    closes (trace (fst (run healthy put_no_body config))) = 1.
Proof.
  apply (missing_body_is_rejected healthy put_no_body config (VStr "u1") "put"
           ltac:(eapply Ready; reflexivity)); auto.
Defined.

Lemma immediate_query_failure_witness :
  snd (run unreachable get_c1 config) =
    Ret (mkResponse 500 (VObj [("error", message invalid_state)])) /\
  uncaught (fst (run unreachable get_c1 config)) = [] /\
  closes (trace (fst (run unreachable get_c1 config))) = 1.
Proof.
  apply (immediate_query_failure unreachable get_c1 config (VStr "u1") "get"
           (VStr "select id, description, isCompleted, objectId from dbo.Todo where channelOrChatId = 'c1'")
           [Callback (Some invalid_state)] [] [] invalid_state
           ltac:(eapply Ready; reflexivity)); reflexivity.
Defined.

Lemma create_statement_witness :
  submitted (trace (fst (run healthy post_milk config))) =
    [VStr "insert into dbo.Todo (description, objectId, isCompleted, channelOrChatId) values (N'Buy milk','u1',0,'c1')"].
Proof.
  apply (create_statement healthy post_milk config (VStr "u1")
           (VStr "Buy milk") (VBool false) (VStr "c1")
           ltac:(eapply Ready; reflexivity)); reflexivity.
Defined.

Lemma read_without_parameter_witness :
  submitted (trace (fst (run healthy get_no_parameter config))) =
    [VStr "select id, description, isCompleted, objectId from dbo.Todo where channelOrChatId = 'undefined'"].
Proof.
  apply (read_without_parameter healthy get_no_parameter config (VStr "u1") []
           ltac:(eapply Ready; reflexivity)); reflexivity.
Defined.

Lemma method_case_insensitive_witness :
  run healthy (mkRequest (VStr "Delete") (VObj []) VUndefined) config =
  run healthy (mkRequest (VStr "DELETE") (VObj []) VUndefined) config.
Proof.
  apply (method_case_insensitive healthy "Delete" "DELETE"). reflexivity.
Defined.

End TaskStoreMore.

(* ===================================================================== *)
(** ** More facts about the notification handler *)
(* ===================================================================== *)

Module NotificationMore.

Import Js Async Notification NotificationFacts.
Local Open Scope async_scope.

Ltac reduce_in H :=
  cbv beta iota zeta delta
    [bind ret throw hang await lift call modify gets try_catch emit] in H.

Ltac next_call H :=
  match type of H with
  | context [match ?x with _ => _ end] =>
      lazymatch x with
      | context [match _ with _ => _ end] => fail
      | _ => destruct x eqn:?; reduce_in H
      end
  end.

Ltac explore H :=
  unfold run, notify in H; reduce_in H; repeat next_call H;
  inversion H; subst; clear H.

(** X17.  When the credential cannot be constructed, the handler logs the
    exception with [context.log.error], returns status 500 with its fixed
    message, and calls nothing of the notification pipeline. *)
Theorem credential_failure_is_reported w req teamsfxContext accessToken e :
  getProp teamsfxContext "AccessToken" = Ok accessToken ->
  truthy accessToken = true ->
  newOnBehalfOfUserCredential w accessToken (oboAuthConfig w) = Some e ->
  run w req teamsfxContext [] =
    ([ContextLog "HTTP trigger function processed a request.";
      NewOnBehalfOfUserCredential accessToken (oboAuthConfig w);
      ContextLogError e],
     Ret (mkResponse 500
            (VObj [("error",
                    VStr "Failed to construct OnBehalfOfUserCredential using your accessToken. Ensure your function app is configured with the right Azure AD App registration.")]))).
Proof.
  intros Htoken Htruthy Hcredential.
  unfold run. reduce. rewrite Htoken. reduce. rewrite Htruthy. cbn [negb].
  rewrite Hcredential. reflexivity.
Qed.

Ltac addressed :=
  split; [reflexivity | ]; split; [eassumption | ]; split; [eassumption | ];
  split; [reflexivity | ]; split; [reflexivity | ]; split; [reflexivity | ];
  first [ left; split; [reflexivity | eassumption]
        | right; eexists; split; [reflexivity | eassumption] ].

(** X19.  A notification is posted only for a user whose graph profile and
    installation id were both obtained, to the path of that user and with
    the installation id in its topic; it is the last library call of the
    run, followed by nothing when the post succeeds and by the log of its
    exception when it fails. *)
Theorem notification_is_addressed w req teamsfxContext t r path body :
  run w req teamsfxContext [] = (t, r) ->
  In (Post path body) t ->
  exists accessToken userProfile userId installationId after,
    getMe w = Ok userProfile /\
    getProp userProfile "id" = Ok userId /\
    getInstallationId w userId = Ok installationId /\
    path = "users/" ++ toString userId ++ "/teamwork/sendActivityNotification" /\
    body = postbody userId installationId /\
    t = ([ContextLog "HTTP trigger function processed a request.";
          NewOnBehalfOfUserCredential accessToken (oboAuthConfig w);
          CreateGraphClientWithCredential; GetMe; GetInstallationId userId;
          NewTeamsFx; CreateGraphClient; Post path body] ++ after)%list /\
    ((after = [] /\ post w path body = None) \/
     exists e, after = [ConsoleLog e] /\ post w path body = Some e).
Proof.
  intros H Hin. explore H; cbn [app In] in Hin;
    repeat (destruct Hin as [Hin | Hin]; try discriminate); try contradiction;
    inversion Hin; subst;
    do 4 eexists;
    first [ exists (@nil Effect); addressed | eexists [ConsoleLog _]; addressed ].
Qed.

(** X20.  When every library call succeeds, the handler posts exactly one
    notification, as its last call, logs no failure and returns the
    response with the echoed headers. *)
Theorem notification_is_sent w req teamsfxContext accessToken userProfile userId
        installationId :
  getProp teamsfxContext "AccessToken" = Ok accessToken ->
  truthy accessToken = true ->
  newOnBehalfOfUserCredential w accessToken (oboAuthConfig w) = None ->
  createMicrosoftGraphClientWithCredential w = None ->
  getMe w = Ok userProfile ->
  getProp userProfile "id" = Ok userId ->
  getInstallationId w userId = Ok installationId ->
  newTeamsFx w = None ->
  createMicrosoftGraphClient w = None ->
  post w ("users/" ++ toString userId ++ "/teamwork/sendActivityNotification")
       (postbody userId installationId) = None ->
  run w req teamsfxContext [] =
    ([ContextLog "HTTP trigger function processed a request.";
      NewOnBehalfOfUserCredential accessToken (oboAuthConfig w);
      CreateGraphClientWithCredential; GetMe; GetInstallationId userId;
      NewTeamsFx; CreateGraphClient;
      Post ("users/" ++ toString userId ++ "/teamwork/sendActivityNotification")
           (postbody userId installationId)],
     Ret (mkResponse 200
            (VObj [("receivedHTTPRequestBody", or_else (req_headers req) (VStr ""))]))).
Proof.
  intros Htoken Htruthy Hcred Hclient Hme Hid Hinstall Hteamsfx Hgraph Hpost.
  unfold run, notify. reduce. rewrite Htoken. reduce. rewrite Htruthy. cbn [negb].
  rewrite Hcred. reduce. rewrite Hclient. reduce. rewrite Hme. reduce.
  rewrite Hid. reduce. rewrite Hinstall. reduce. rewrite Hteamsfx. reduce.
  rewrite Hgraph. reduce. rewrite Hpost. reflexivity.
Qed.

(** *** Sample runs *)

Import NotificationScenario MoreNotificationScenario.

Lemma credential_failure_witness :
  run misconfigured request with_token [] =
    ([ContextLog "HTTP trigger function processed a request.";
      NewOnBehalfOfUserCredential (VStr "sso-token") (oboAuthConfig misconfigured);
      ContextLogError bad_secret],
     Ret (mkResponse 500
            (VObj [("error",
                    VStr "Failed to construct OnBehalfOfUserCredential using your accessToken. Ensure your function app is configured with the right Azure AD App registration.")]))).
Proof.
  apply (credential_failure_is_reported misconfigured request with_token
           (VStr "sso-token") bad_secret); reflexivity.
Defined.

Lemma notification_is_addressed_witness :
  exists accessToken userProfile userId installationId after,
    getMe refusing = Ok userProfile /\
    getProp userProfile "id" = Ok userId /\
    getInstallationId refusing userId = Ok installationId /\
    "users/user-1/teamwork/sendActivityNotification" =
      "users/" ++ toString userId ++ "/teamwork/sendActivityNotification" /\
    postbody (VStr "user-1") (VStr "install-9") = postbody userId installationId /\
    fst (run refusing request with_token []) =
      ([ContextLog "HTTP trigger function processed a request.";
        NewOnBehalfOfUserCredential accessToken (oboAuthConfig refusing);
        CreateGraphClientWithCredential; GetMe; GetInstallationId userId;
        NewTeamsFx; CreateGraphClient;
        Post "users/user-1/teamwork/sendActivityNotification"
             (postbody (VStr "user-1") (VStr "install-9"))] ++ after)%list /\
    ((after = [] /\
      post refusing "users/user-1/teamwork/sendActivityNotification"
           (postbody (VStr "user-1") (VStr "install-9")) = None) \/
     exists e,
       after = [ConsoleLog e] /\
       post refusing "users/user-1/teamwork/sendActivityNotification"
            (postbody (VStr "user-1") (VStr "install-9")) = Some e).
Proof.
  apply (notification_is_addressed refusing request with_token
           (fst (run refusing request with_token []))
           (snd (run refusing request with_token []))
           "users/user-1/teamwork/sendActivityNotification"
           (postbody (VStr "user-1") (VStr "install-9"))).
  - reflexivity.
  - vm_compute. auto 10.
Defined.

Lemma notification_is_sent_witness :
  run delivering request with_token [] =
    ([ContextLog "HTTP trigger function processed a request.";
      NewOnBehalfOfUserCredential (VStr "sso-token") (oboAuthConfig delivering);
      CreateGraphClientWithCredential; GetMe; GetInstallationId (VStr "user-1");
      NewTeamsFx; CreateGraphClient;
      Post "users/user-1/teamwork/sendActivityNotification"
           (postbody (VStr "user-1") (VStr "install-9"))],
     Ret (mkResponse 200 (VObj [("receivedHTTPRequestBody", headers)]))).
Proof.
  apply (notification_is_sent delivering request with_token (VStr "sso-token")
           (VObj [("id", VStr "user-1")]) (VStr "user-1") (VStr "install-9"));
    reflexivity.
Defined.

End NotificationMore.
